(** * Downloads page of NepaliWalletDesktop: preview dispatcher and file catalog

    Shallow embedding of [src/app/dashboard/downloads/page.tsx]
    (component [DownloadsPage]): the asynchronous handlers
    [readAnyFile], [ensureFolderExists], [loadFiles], [openFile],
    [deleteFile] and the close button of the preview, over

    - the React state of the component ([files], [loading],
      [fileContent], [pdfUrl], [fileName]),
    - a model of the host the handlers talk to (the Tauri file-system
      plugin on the [NepaliWallet] folder of the documents directory,
      the browser's blob-URL store, the console),
    - a small exception monad for [await]/[throw]/[try ... catch]. *)

From Stdlib Require Import List String Ascii ZArith NArith Lia ZifyNat Bool.
From Stdlib Require Import Strings.Byte.
From Stdlib Require Import Sorting.Sorted Sorting.Permutation.
From Stdlib Require Import DecimalString.
Import ListNotations.
Open Scope string_scope.

(* ================================================================== *)
(** ** JavaScript strings *)
(* ================================================================== *)

Module JsString.

(** [String.prototype.toLowerCase], on the letters A-Z.  The result is
    only ever compared with the literals ["txt"], ["csv"] and ["pdf"];
    no character outside A-Z lower-cases to one of their letters. *)
Definition lower_ascii (c : ascii) : ascii :=
  let n := nat_of_ascii c in
  if (andb (65 <=? n) (n <=? 90))%nat then ascii_of_nat (n + 32) else c.

Fixpoint toLowerCase (s : string) : string :=
  match s with
  | EmptyString => EmptyString
  | String c s' => String (lower_ascii c) (toLowerCase s')
  end.

(** [s.split(sep)] for a one-character separator: the pieces between
    the occurrences of [sep]; never the empty array. *)
Fixpoint split (sep : ascii) (s : string) : list string :=
  match s with
  | EmptyString => [EmptyString]
  | String c s' =>
      if Ascii.eqb c sep then EmptyString :: split sep s'
      else match split sep s' with
           | [] => [String c EmptyString]
           | piece :: rest => String c piece :: rest
           end
  end.

(** [arr.pop()]: the last element, [undefined] ([None]) on []. *)
Fixpoint pop {A} (l : list A) : option A :=
  match l with
  | [] => None
  | [x] => Some x
  | _ :: l' => pop l'
  end.

(** [arr.join(sep)]. *)
Fixpoint join (sep : string) (l : list string) : string :=
  match l with
  | [] => EmptyString
  | [x] => x
  | x :: l' => x ++ sep ++ join sep l'
  end.

Fixpoint contains (c : ascii) (s : string) : bool :=
  match s with
  | EmptyString => false
  | String d s' => Ascii.eqb d c || contains c s'
  end.

(** [a === b] where [a] may be [undefined]. *)
Definition strict_eq (a : option string) (b : string) : bool :=
  match a with
  | Some s => String.eqb s b
  | None => false
  end.

End JsString.

(* ================================================================== *)
(** ** Data model of the component *)
(* ================================================================== *)

Definition EXPORT_FOLDER : string := "NepaliWallet".

(** [interface FileType { name: string; mtime: number }] *)
Record FileType : Type := mkFile { name : string; mtime : Z }.

(** One parsed CSV record: header name to cell, in column order. *)
Definition CsvRecord : Type := list (string * string).

(** [type PreviewResult]. *)
Inductive PreviewResult : Type :=
| PTxt (content : string)
| PCsv (content : list CsvRecord)
| PPdf (content : list byte)
| PUnknown.

(** The [useState] cells of [DownloadsPage]. *)
Record UiState : Type := mkUi {
  files : list FileType;
  loading : bool;
  fileContent : option PreviewResult;
  pdfUrl : string;
  fileName : string
}.

Definition initial_ui : UiState :=
  {| files := []; loading := false; fileContent := None;
     pdfUrl := ""; fileName := "" |}.

(* ================================================================== *)
(** ** The host: file system, blob store, console *)
(* ================================================================== *)

(** Values a rejected promise or a [throw] carries. *)
Inductive JsError : Type :=
| FsError (op path : string)
| InvalidCharacterError.

(** [readFile] resolves to raw bytes or, on some hosts, to a base64
    string (the case the source guards with [typeof binary]). *)
Inductive BinaryRead : Type :=
| RawBytes (b : list byte)
| Base64String (s : string).

(** One entry of the export folder, with what the plugin answers for
    it: [statResult] is [None] when [stat] rejects and [Some m] when it
    resolves with [stats.mtime] equal to [m] ([null], or a date whose
    [getTime()] is the integer); likewise for the two reads. *)
Record HostEntry : Type := mkEntry {
  entryName : string;
  isFile : bool;
  statResult : option (option Z);
  textResult : option string;
  binaryResult : option BinaryRead;
  removable : bool
}.

Record Host : Type := mkHost {
  tauri : bool;                          (* "__TAURI_INTERNALS__" in window *)
  folder : option (list HostEntry);      (* None: the folder does not exist *)
  mkdirAllowed : bool;
  blobStore : list (string * list byte)  (* live object URLs *)
}.

Inductive LogLine : Type :=
| ConsoleError (msg : string) (e : JsError)
| ConsoleWarn (msg : string) (e : JsError).

Record Sys : Type := mkSys {
  host : Host;
  ui : UiState;
  console : list LogLine
}.

(* ================================================================== *)
(** ** Asynchronous tasks: state plus exceptions *)
(* ================================================================== *)

Inductive Completion (A : Type) : Type :=
| Normal (a : A)
| Thrown (e : JsError).
Arguments Normal {A} a.
Arguments Thrown {A} e.

Definition Task (A : Type) : Type := Sys -> Completion A * Sys.

Definition ret {A} (a : A) : Task A := fun s => (Normal a, s).

Definition throw {A} (e : JsError) : Task A := fun s => (Thrown e, s).

Definition bind {A B} (m : Task A) (k : A -> Task B) : Task B :=
  fun s =>
    match m s with
    | (Normal a, s') => k a s'
    | (Thrown e, s') => (Thrown e, s')
    end.

(** [try { body } catch (err) { handler }]: effects of [body] up to the
    throw are kept. *)
Definition try_catch {A} (body : Task A) (handler : JsError -> Task A) : Task A :=
  fun s =>
    match body s with
    | (Normal a, s') => (Normal a, s')
    | (Thrown e, s') => handler e s'
    end.

(** [if (c) { body }] *)
Definition when (c : bool) (body : Task unit) : Task unit :=
  if c then body else ret tt.

Declare Scope task_scope.
Delimit Scope task_scope with task.
Notation "x <- c1 ;; c2" := (bind c1 (fun x => c2))
  (at level 61, c1 at next level, right associativity) : task_scope.
Notation "c1 ;; c2" := (bind c1 (fun _ => c2))
  (at level 61, right associativity) : task_scope.
Open Scope task_scope.

(** Running a task: the final state, and the completion. *)
Definition exec {A} (m : Task A) (s : Sys) : Sys := snd (m s).
Definition result {A} (m : Task A) (s : Sys) : Completion A := fst (m s).

Definition modify_ui (f : UiState -> UiState) : Task unit :=
  fun s => (Normal tt, {| host := host s; ui := f (ui s); console := console s |}).

Definition modify_host (f : Host -> Host) : Task unit :=
  fun s => (Normal tt, {| host := f (host s); ui := ui s; console := console s |}).

Definition get_host : Task Host := fun s => (Normal (host s), s).

Definition log (l : LogLine) : Task unit :=
  fun s => (Normal tt, {| host := host s; ui := ui s; console := console s ++ [l] |}).

Definition console_error (msg : string) (e : JsError) : Task unit :=
  log (ConsoleError msg e).
Definition console_warn (msg : string) (e : JsError) : Task unit :=
  log (ConsoleWarn msg e).

(** The state setters. *)
Definition setFiles (f : list FileType -> list FileType) : Task unit :=
  modify_ui (fun u => {| files := f (files u); loading := loading u;
                         fileContent := fileContent u; pdfUrl := pdfUrl u;
                         fileName := fileName u |}).
Definition setLoading (b : bool) : Task unit :=
  modify_ui (fun u => {| files := files u; loading := b;
                         fileContent := fileContent u; pdfUrl := pdfUrl u;
                         fileName := fileName u |}).
Definition setFileContent (c : option PreviewResult) : Task unit :=
  modify_ui (fun u => {| files := files u; loading := loading u;
                         fileContent := c; pdfUrl := pdfUrl u;
                         fileName := fileName u |}).
Definition setPdfUrl (url : string) : Task unit :=
  modify_ui (fun u => {| files := files u; loading := loading u;
                         fileContent := fileContent u; pdfUrl := url;
                         fileName := fileName u |}).
Definition setFileName (n : string) : Task unit :=
  modify_ui (fun u => {| files := files u; loading := loading u;
                         fileContent := fileContent u; pdfUrl := pdfUrl u;
                         fileName := n |}).

(* ================================================================== *)
(** ** Host calls *)
(* ================================================================== *)

Module HostApi.

(** Tauri's [DirEntry], as far as the page reads it. *)
Record DirEntry : Type := mkDirEntry { de_name : string; de_isFile : bool }.

(** [stat]'s [FileInfo], as far as the page reads it. *)
Record FileInfo : Type := mkInfo { fi_mtime : option Z }.

Fixpoint strip_prefix (p s : string) : option string :=
  match p, s with
  | EmptyString, _ => Some s
  | String c p', String d s' =>
      if Ascii.eqb c d then strip_prefix p' s' else None
  | String _ _, EmptyString => None
  end.

(** The entry a path relative to the documents directory names. *)
Definition lookup (path : string) (h : Host) : option HostEntry :=
  match strip_prefix (EXPORT_FOLDER ++ "/") path, folder h with
  | Some n, Some es => find (fun e => String.eqb (entryName e) n) es
  | _, _ => None
  end.

(** [exists(EXPORT_FOLDER, ...)] *)
Definition fs_exists (path : string) : Task bool :=
  h <- get_host ;;
  ret (match folder h with Some _ => true | None => false end).

(** [mkdir(EXPORT_FOLDER, {recursive: true})]: creating a folder that
    is there already is not an error. *)
Definition fs_mkdir (path : string) : Task unit :=
  h <- get_host ;;
  match folder h with
  | Some _ => ret tt
  | None =>
      if mkdirAllowed h
      then modify_host (fun h => {| tauri := tauri h; folder := Some [];
                                    mkdirAllowed := mkdirAllowed h;
                                    blobStore := blobStore h |})
      else throw (FsError "mkdir" path)
  end.

Definition fs_readDir (path : string) : Task (list DirEntry) :=
  h <- get_host ;;
  match folder h with
  | Some es => ret (map (fun e => mkDirEntry (entryName e) (isFile e)) es)
  | None => throw (FsError "readDir" path)
  end.

Definition fs_stat (path : string) : Task FileInfo :=
  h <- get_host ;;
  match lookup path h with
  | Some e =>
      match statResult e with
      | Some m => ret (mkInfo m)
      | None => throw (FsError "stat" path)
      end
  | None => throw (FsError "stat" path)
  end.

Definition fs_readTextFile (path : string) : Task string :=
  h <- get_host ;;
  match lookup path h with
  | Some e =>
      match textResult e with
      | Some t => ret t
      | None => throw (FsError "readTextFile" path)
      end
  | None => throw (FsError "readTextFile" path)
  end.

Definition fs_readFile (path : string) : Task BinaryRead :=
  h <- get_host ;;
  match lookup path h with
  | Some e =>
      match binaryResult e with
      | Some b => ret b
      | None => throw (FsError "readFile" path)
      end
  | None => throw (FsError "readFile" path)
  end.

(** [remove(path)]: the entry disappears from the folder, or the call
    rejects (no such file, not permitted). *)
Definition fs_remove (path : string) : Task unit :=
  h <- get_host ;;
  match lookup path h, folder h with
  | Some e, Some es =>
      if removable e
      then modify_host (fun h =>
             {| tauri := tauri h;
                folder := Some (filter (fun x => negb (String.eqb (entryName x) (entryName e))) es);
                mkdirAllowed := mkdirAllowed h;
                blobStore := blobStore h |})
      else throw (FsError "remove" path)
  | _, _ => throw (FsError "remove" path)
  end.

(** [URL.createObjectURL(new Blob([bytes], ...))]: a new URL, live in
    the document until it is revoked. *)
Definition blob_url (n : nat) : string :=
  "blob:" ++ NilEmpty.string_of_uint (Nat.to_uint n).

Definition createObjectURL (bytes : list byte) : Task string :=
  h <- get_host ;;
  let url := blob_url (List.length (blobStore h)) in
  modify_host (fun h => {| tauri := tauri h; folder := folder h;
                           mkdirAllowed := mkdirAllowed h;
                           blobStore := blobStore h ++ [(url, bytes)] |}) ;;
  ret url.

(** [isTauri()] *)
Definition isTauri : Task bool :=
  h <- get_host ;; ret (tauri h).

End HostApi.
Import HostApi.

(* ================================================================== *)
(** ** Base64: the browser's [atob] and the encoding it undoes *)
(* ================================================================== *)

Module Base64.

Definition alphabet : list ascii :=
  list_ascii_of_string
    "ABCDEFGHIJKLMNOPQRSTUVWXYZabcdefghijklmnopqrstuvwxyz0123456789+/".

Definition pad_char : ascii := "="%char.

(** The character of a 6-bit value. *)
Definition char_of_sextet (n : nat) : ascii := nth n alphabet "A"%char.

Fixpoint index_of (c : ascii) (l : list ascii) : option nat :=
  match l with
  | [] => None
  | d :: l' => if Ascii.eqb c d then Some 0%nat
               else option_map S (index_of c l')
  end.

(** The 6-bit value of a character of the alphabet. *)
Definition sextet_of_char (c : ascii) : option nat := index_of c alphabet.

(** RFC 4648 encoding with padding: what a host that hands the file
    over as text produces from the bytes [l]. *)
Fixpoint encode_chars (l : list byte) : list ascii :=
  match l with
  | [] => []
  | [a] =>
      let a := Byte.to_nat a in
      [char_of_sextet (a / 4); char_of_sextet (a mod 4 * 16);
       pad_char; pad_char]
  | [a; b] =>
      let a := Byte.to_nat a in
      let b := Byte.to_nat b in
      [char_of_sextet (a / 4); char_of_sextet (a mod 4 * 16 + b / 16);
       char_of_sextet (b mod 16 * 4); pad_char]
  | a :: b :: c :: rest =>
      let a := Byte.to_nat a in
      let b := Byte.to_nat b in
      let c := Byte.to_nat c in
      char_of_sextet (a / 4) :: char_of_sextet (a mod 4 * 16 + b / 16)
      :: char_of_sextet (b mod 16 * 4 + c / 64) :: char_of_sextet (c mod 64)
      :: encode_chars rest
  end.

Definition encode (l : list byte) : string :=
  string_of_list_ascii (encode_chars l).

(** *** [atob]: forgiving-base64 decode of the HTML standard *)

(** ASCII whitespace: TAB, LF, FF, CR, SPACE. *)
Definition is_whitespace (c : ascii) : bool :=
  let n := nat_of_ascii c in
  ((n =? 9) || (n =? 10) || (n =? 12) || (n =? 13) || (n =? 32))%nat.

(** Drop one or two [=] at the very end. *)
Fixpoint strip_padding (l : list ascii) : list ascii :=
  match l with
  | [] => []
  | c :: l' =>
      if Ascii.eqb c pad_char
         && match l' with
            | [] => true
            | [d] => Ascii.eqb d pad_char
            | _ => false
            end
      then []
      else c :: strip_padding l'
  end.

Fixpoint sextets_of (l : list ascii) : option (list nat) :=
  match l with
  | [] => Some []
  | c :: l' =>
      match sextet_of_char c, sextets_of l' with
      | Some n, Some ns => Some (n :: ns)
      | _, _ => None
      end
  end.

(** 24 bits at a time become three bytes; 12 left-over bits give one
    byte and 18 give two, the low bits being dropped. *)
Fixpoint bytes_of_sextets (l : list nat) : list nat :=
  match l with
  | s1 :: s2 :: s3 :: s4 :: rest =>
      (s1 * 4 + s2 / 16) :: (s2 mod 16 * 16 + s3 / 4)
      :: (s3 mod 4 * 64 + s4) :: bytes_of_sextets rest
  | [s1; s2; s3] => [s1 * 4 + s2 / 16; s2 mod 16 * 16 + s3 / 4]
  | [s1; s2] => [s1 * 4 + s2 / 16]
  | _ => []
  end.

(** [atob(data)]: the binary string, or [None] where the browser
    throws [InvalidCharacterError]. *)
Definition atob (data : string) : option string :=
  let d := filter (fun c => negb (is_whitespace c)) (list_ascii_of_string data) in
  let d := if (List.length d mod 4 =? 0)%nat then strip_padding d else d in
  if (List.length d mod 4 =? 1)%nat then None
  else match sextets_of d with
       | Some ns => Some (string_of_list_ascii (map ascii_of_nat (bytes_of_sextets ns)))
       | None => None
       end.

End Base64.

(* ================================================================== *)
(** ** The CSV parser *)
(* ================================================================== *)

Module Papa.

Definition newline : ascii := ascii_of_nat 10.
Definition comma : ascii := ","%char.

Definition lf : string := String newline EmptyString.

Definition nonempty (s : string) : bool :=
  match s with EmptyString => false | _ => true end.

(** Modelled from the spec: [Papa.parse(text, {header: true,
    skipEmptyLines: true}).data] of the papaparse package, which the
    page imports and whose code is not part of the source.  Spec 4.3:
    "parse as delimited data with the first line treated as header
    (column names), skip fully empty lines, produce one mapping per
    data row keyed by header name in column order, values kept as
    strings (no type coercion)"; spec 6: "comma-delimited". *)
Definition parse (text : string) : list CsvRecord :=
  match JsString.split newline text with
  | [] => []
  | header :: lines =>
      let columns := JsString.split comma header in
      map (fun line => combine columns (JsString.split comma line))
          (filter nonempty lines)
  end.

End Papa.

(* ================================================================== *)
(** ** Array helpers *)
(* ================================================================== *)

Section JsArray.

Context {A : Type}.

(** [arr.filter(Boolean)] on an array of objects and [null]s. *)
Fixpoint filter_Boolean (l : list (option A)) : list A :=
  match l with
  | [] => []
  | Some x :: l' => x :: filter_Boolean l'
  | None :: l' => filter_Boolean l'
  end.

Variable compareFn : A -> A -> Z.

(** [Array.prototype.sort(compareFn)].  ECMAScript fixes the result
    for a consistent comparator: the stable arrangement in which [a]
    stays in front of a later [b] unless [compareFn(a, b) > 0].
    Written here as insertion from the right. *)
Fixpoint sort_insert (x : A) (l : list A) : list A :=
  match l with
  | [] => [x]
  | y :: l' =>
      if (compareFn x y <=? 0)%Z then x :: y :: l'
      else y :: sort_insert x l'
  end.

Definition js_sort (l : list A) : list A :=
  fold_right sort_insert [] l.

End JsArray.

(** [Promise.all(tasks)]: every result in order, or the first
    rejection. *)
Fixpoint promise_all {A} (tasks : list (Task A)) : Task (list A) :=
  match tasks with
  | [] => ret []
  | t :: ts =>
      x <- t ;;
      xs <- promise_all ts ;;
      ret (x :: xs)
  end.

(* ================================================================== *)
(** ** The handlers of [DownloadsPage] *)
(* ================================================================== *)

(** The [for] loop filling [arr[i] = raw.charCodeAt(i)]. *)
Fixpoint char_codes (raw : string) : list byte :=
  match raw with
  | EmptyString => []
  | String c raw' => byte_of_ascii c :: char_codes raw'
  end.

(** Lines 82-94 of the source: the bytes handed to [new Blob]. *)
Definition normalize_binary (binary : BinaryRead) : Task (list byte) :=
  match binary with
  | Base64String s =>
      match Base64.atob s with
      | Some raw => ret (char_codes raw)
      | None => throw InvalidCharacterError
      end
  | RawBytes b => ret b
  end.

Definition file_ext (n : string) : option string :=
  option_map JsString.toLowerCase (JsString.pop (JsString.split "."%char n)).

(** The bodies of the three [if (ext === ...)] blocks of [readAnyFile]. *)
Definition preview_txt (filePath : string) : Task unit :=
  text <- fs_readTextFile filePath ;;
  setFileContent (Some (PTxt text)).

Definition preview_csv (filePath : string) : Task unit :=
  csvText <- fs_readTextFile filePath ;;
  let parsed := Papa.parse csvText in
  setFileContent (Some (PCsv parsed)).

Definition preview_pdf (filePath : string) : Task unit :=
  binary <- fs_readFile filePath ;;
  uint8 <- normalize_binary binary ;;
  url <- createObjectURL uint8 ;;
  setPdfUrl url.

Definition read_failed (err : JsError) : Task PreviewResult :=
  console_error "File read failed:" err ;;
  ret PUnknown.

Definition readAnyFile (file : FileType) : Task PreviewResult :=
  let ext := file_ext (name file) in
  let filePath := EXPORT_FOLDER ++ "/" ++ name file in
  try_catch
    (when (JsString.strict_eq ext "txt") (preview_txt filePath) ;;
     when (JsString.strict_eq ext "csv") (preview_csv filePath) ;;
     when (JsString.strict_eq ext "pdf") (preview_pdf filePath) ;;
     ret PUnknown)
    read_failed.

Definition ensureFolderExists : Task unit :=
  try_catch
    (folderExists <- fs_exists EXPORT_FOLDER ;;
     when (negb folderExists) (fs_mkdir EXPORT_FOLDER))
    (fun e => console_warn "Folder creation failed:" e).

(** The callback mapped over the directory entries in [loadFiles]. *)
Definition file_object (entry : DirEntry) : Task (option FileType) :=
  if negb (de_isFile entry) then ret None
  else
    let filePath := EXPORT_FOLDER ++ "/" ++ de_name entry in
    stats <- fs_stat filePath ;;
    ret (Some {| name := de_name entry;
                 mtime := match fi_mtime stats with
                          | Some t => t
                          | None => 0%Z
                          end |}).

Definition by_mtime_desc (a b : FileType) : Z := (mtime b - mtime a)%Z.

Definition loadFiles : Task unit :=
  t <- isTauri ;;
  if negb t then ret tt
  else
    setLoading true ;;
    try_catch
      (entries <- fs_readDir EXPORT_FOLDER ;;
       fileObjects <- promise_all (map file_object entries) ;;
       let filesOnly := filter_Boolean fileObjects in
       let filesOnly := js_sort by_mtime_desc filesOnly in
       setFiles (fun _ => filesOnly))
      (fun err =>
         console_error "Error listing files" err ;;
         setFiles (fun _ => [])) ;;
    setLoading false.

Definition openFile (file : FileType) : Task unit :=
  setPdfUrl "" ;;
  setFileContent None ;;
  setFileName (name file) ;;
  _ <- readAnyFile file ;;
  ret tt.

(** The [onClick] of the close button of the preview. *)
Definition closePreview : Task unit :=
  setPdfUrl "" ;;
  setFileContent None ;;
  setFileName "".

Definition deleteFile (file : FileType) : Task unit :=
  t <- isTauri ;;
  if negb t then ret tt
  else
    try_catch
      (fs_remove (EXPORT_FOLDER ++ "/" ++ name file) ;;
       setFiles (fun prev =>
         filter (fun f => negb (String.eqb (name f) (name file))) prev))
      (fun err => console_error "Error deleting file" err).

(** The effect run once on mount. *)
Definition load : Task unit :=
  t <- isTauri ;;
  when t (ensureFolderExists ;; loadFiles).

(* ================================================================== *)
(** ** Vocabulary of the properties *)
(* ================================================================== *)

(** What [stat] answers for the entry called [n]. *)
Definition stat_answer (h : Host) (n : string) : option (option Z) :=
  match lookup (EXPORT_FOLDER ++ "/" ++ n) h with
  | Some e => statResult e
  | None => None
  end.

(** A regular file whose metadata fetch rejects. *)
Definition stat_fails (h : Host) (e : HostEntry) : bool :=
  isFile e && match stat_answer h (entryName e) with
              | Some _ => false
              | None => true
              end.

(** The entries that survive a listing, in the order of the directory
    enumeration: the regular files whose [stat] resolves, each with its
    modification time (0 when the host reports none). *)
Definition surviving (h : Host) (es : list HostEntry) : list FileType :=
  filter_Boolean
    (map (fun e =>
            if isFile e then
              match stat_answer h (entryName e) with
              | Some m => Some {| name := entryName e;
                                  mtime := match m with Some t => t | None => 0%Z end |}
              | None => None
              end
            else None) es).

(** [a] occurs somewhere in front of [b]. *)
Definition precedes {A} (a b : A) (l : list A) : Prop :=
  exists l1 l2 l3, l = (l1 ++ a :: l2 ++ b :: l3)%list.

Definition mtime_ge (a b : FileType) : Prop := (mtime a >= mtime b)%Z.

(** The entries whose timestamp is [t]. *)
Definition with_mtime (t : Z) (f : FileType) : bool := (mtime f =? t)%Z.

(** What [readDir] reports for the entries [es]. *)
Definition dir_entries (es : list HostEntry) : list DirEntry :=
  map (fun e => mkDirEntry (entryName e) (isFile e)) es.

(** The value [file_object] resolves to for an entry, [None] standing
    for a rejection. *)
Definition stat_object (h : Host) (e : HostEntry) : option (option FileType) :=
  if isFile e then
    match stat_answer h (entryName e) with
    | Some m => Some (Some {| name := entryName e;
                              mtime := match m with Some t => t | None => 0%Z end |})
    | None => None
    end
  else Some None.

(** The operations on the preview. *)
Inductive PreviewOp : Type :=
| OpOpen (file : FileType)
| OpClose.

Definition run_op (op : PreviewOp) : Task unit :=
  match op with
  | OpOpen file => openFile file
  | OpClose => closePreview
  end.

Fixpoint run_ops (ops : list PreviewOp) : Task unit :=
  match ops with
  | [] => ret tt
  | op :: ops' => run_op op ;; run_ops ops'
  end.



(** The states the preview blocks and the [catch] handlers lead to. *)
Definition show_content (c : PreviewResult) (s : Sys) : Sys :=
  {| host := host s;
     ui := {| files := files (ui s); loading := loading (ui s);
              fileContent := Some c; pdfUrl := pdfUrl (ui s);
              fileName := fileName (ui s) |};
     console := console s |}.

Definition show_pdf (bytes : list byte) (s : Sys) : Sys :=
  let url := blob_url (List.length (blobStore (host s))) in
  {| host := {| tauri := tauri (host s); folder := folder (host s);
                mkdirAllowed := mkdirAllowed (host s);
                blobStore := (blobStore (host s) ++ [(url, bytes)])%list |};
     ui := {| files := files (ui s); loading := loading (ui s);
              fileContent := fileContent (ui s); pdfUrl := url;
              fileName := fileName (ui s) |};
     console := console s |}.

Definition log_error (msg : string) (err : JsError) (s : Sys) : Sys :=
  {| host := host s; ui := ui s;
     console := (console s ++ [ConsoleError msg err])%list |}.

(** The state [openFile] hands to [readAnyFile]: the preview cleared,
    the file name set. *)
Definition cleared (file : FileType) (s : Sys) : Sys :=
  {| host := host s;
     ui := {| files := files (ui s); loading := loading (ui s);
              fileContent := None; pdfUrl := "";
              fileName := name file |};
     console := console s |}.

(** The test of the [filter] in [deleteFile]. *)
Definition other_than (file : FileType) (f : FileType) : bool :=
  negb (String.eqb (name f) (name file)).

(** The 6-bit values and the padding [Base64.encode_chars] writes. *)
Fixpoint sextets (l : list byte) : list nat :=
  match l with
  | [] => []
  | [a] =>
      let a := Byte.to_nat a in
      [a / 4; a mod 4 * 16]%nat
  | [a; b] =>
      let a := Byte.to_nat a in
      let b := Byte.to_nat b in
      [a / 4; a mod 4 * 16 + b / 16; b mod 16 * 4]%nat
  | a :: b :: c :: rest =>
      let a := Byte.to_nat a in
      let b := Byte.to_nat b in
      let c := Byte.to_nat c in
      (a / 4 :: a mod 4 * 16 + b / 16 :: b mod 16 * 4 + c / 64 :: c mod 64
       :: sextets rest)%nat
  end.

Fixpoint padding (l : list byte) : list ascii :=
  match l with
  | [] => []
  | [_] => [Base64.pad_char; Base64.pad_char]
  | [_; _] => [Base64.pad_char]
  | _ :: _ :: _ :: rest => padding rest
  end.

(** ** Sample hosts *)

Module Samples.

Definition a_txt : HostEntry :=
  {| entryName := "a.txt"; isFile := true; statResult := Some (Some 100%Z);
     textResult := Some ("hello" ++ Papa.lf ++ "world"); binaryResult := None;
     removable := true |}.

Definition b_csv : HostEntry :=
  {| entryName := "b.csv"; isFile := true; statResult := Some (Some 200%Z);
     textResult := Some ("name,age" ++ Papa.lf ++ "Alice,30" ++ Papa.lf ++ "Bob,25");
     binaryResult := None; removable := true |}.

Definition c_pdf : HostEntry :=
  {| entryName := "c.pdf"; isFile := true; statResult := Some (Some 50%Z);
     textResult := None; binaryResult := Some (RawBytes [x25; x50; x44; x46]);
     removable := true |}.

Definition e_pdf : HostEntry :=
  {| entryName := "e.pdf"; isFile := true; statResult := Some (Some 50%Z);
     textResult := None; binaryResult := Some (Base64String "JVBERg==");
     removable := false |}.

(** [b.csv] with a metadata fetch that rejects. *)
Definition b_csv_nostat : HostEntry :=
  {| entryName := "b.csv"; isFile := true; statResult := None;
     textResult := textResult b_csv; binaryResult := None;
     removable := true |}.

(** A file whose whole name is [TXT]. *)
Definition bare_txt : HostEntry :=
  {| entryName := "TXT"; isFile := true; statResult := Some (Some 7%Z);
     textResult := Some "plain"; binaryResult := None; removable := true |}.

Definition host_of (es : list HostEntry) : Host :=
  {| tauri := true; folder := Some es; mkdirAllowed := true; blobStore := [] |}.

Definition sys_of (es : list HostEntry) : Sys :=
  {| host := host_of es; ui := initial_ui; console := [] |}.

(** Scenario 1 of the specification, plus a second PDF. *)
Definition desktop : Sys := sys_of [a_txt; b_csv; c_pdf; e_pdf; bare_txt].

(** A folder in which one metadata fetch rejects. *)
Definition flaky : Sys := sys_of [a_txt; b_csv_nostat].

(** No folder yet. *)
Definition fresh : Sys :=
  {| host := {| tauri := true; folder := None; mkdirAllowed := true;
                blobStore := [] |};
     ui := initial_ui; console := [] |}.

Definition file_a : FileType := {| name := "a.txt"; mtime := 100 |}.
Definition file_b : FileType := {| name := "b.csv"; mtime := 200 |}.
Definition file_c : FileType := {| name := "c.pdf"; mtime := 50 |}.
Definition file_e : FileType := {| name := "e.pdf"; mtime := 50 |}.
Definition file_bare : FileType := {| name := "TXT"; mtime := 7 |}.

End Samples.

(* ================================================================== *)
(** ** The rest of the page: copy, the whole set of actions, the view *)
(* ================================================================== *)

(** What is around the page for [copyFilePath]: whether the dynamic
    import of the clipboard plugin resolves, what [documentDir] and
    [join] resolve to ([None]: a rejection), whether [writeText] is
    permitted, the clipboard and the toasts shown so far. *)
Record Shell : Type := mkShell {
  page : Sys;
  clipboardPlugin : bool;
  documentDirAnswer : option string;
  joinAnswer : list string -> option string;
  writeAllowed : bool;
  clipboard : option string;
  toasts : list string
}.

(** The [try] block of [copyFilePath] up to [writeText]: the path that
    is written, or the rejection that reaches the [catch]. *)
Definition copy_steps (file : FileType) (w : Shell) : string + JsError :=
  if clipboardPlugin w then
    match documentDirAnswer w with
    | Some docDir =>
        match joinAnswer w [docDir; EXPORT_FOLDER; name file] with
        | Some filePath =>
            if writeAllowed w then inl filePath
            else inr (FsError "writeText" filePath)
        | None => inr (FsError "join" docDir)
        end
    | None => inr (FsError "documentDir" "")
    end
  else inr (FsError "import" "@tauri-apps/plugin-clipboard-manager").

Definition copyFilePath (file : FileType) (w : Shell) : Shell :=
  if negb (tauri (host (page w))) then w
  else
    match copy_steps file w with
    | inl filePath =>
        {| page := page w; clipboardPlugin := clipboardPlugin w;
           documentDirAnswer := documentDirAnswer w;
           joinAnswer := joinAnswer w; writeAllowed := writeAllowed w;
           clipboard := Some filePath;
           toasts := (toasts w ++ ["File path copied to clipboard!"])%list |}
    | inr err =>
        {| page := log_error "Copy failed" err (page w);
           clipboardPlugin := clipboardPlugin w;
           documentDirAnswer := documentDirAnswer w;
           joinAnswer := joinAnswer w; writeAllowed := writeAllowed w;
           clipboard := clipboard w; toasts := toasts w |}
    end.

(** The actions of the page that work on [Sys]: the effect on mount,
    the refresh button, and the three per-file and preview buttons. *)
Inductive PageOp : Type :=
| PMount
| PRefresh
| POpen (file : FileType)
| PClose
| PDelete (file : FileType).

Definition run_page_op (op : PageOp) : Task unit :=
  match op with
  | PMount => load
  | PRefresh => loadFiles
  | POpen file => openFile file
  | PClose => closePreview
  | PDelete file => deleteFile file
  end.

Fixpoint run_page_ops (ops : list PageOp) : Task unit :=
  match ops with
  | [] => ret tt
  | op :: ops' => run_page_op op ;; run_page_ops ops'
  end.

Module View.

(** Truthiness of a string: [pdfUrl && ...], [pdfUrl || ...]. *)
Definition truthy (s : string) : bool :=
  match s with EmptyString => false | _ => true end.

(** Inside the scrollable area: the [<pre>] of a text file, the
    [<table>] of a CSV with at least one record, or nothing. *)
Inductive ContentArea : Type :=
| TextBlock (text : string)
| Table (records : list CsvRecord)
| Blank.

(** Inside the card: the loading note, the empty note, or one row
    (name and the three buttons) per catalog entry. *)
Inductive CardBody : Type :=
| LoadingNote
| EmptyNote
| Rows (names : list string).

Inductive Screen : Type :=
| Preview (title : string) (iframe : option string) (area : option ContentArea)
| Listing (hint : string) (card : option CardBody).

Definition content_area (c : PreviewResult) : ContentArea :=
  match c with
  | PTxt text => TextBlock text
  | PCsv [] => Blank
  | PCsv records => Table records
  | _ => Blank
  end.

Definition card_body (u : UiState) : CardBody :=
  if loading u then LoadingNote
  else match files u with
       | [] => EmptyNote
       | fs => Rows (map name fs)
       end.

(** The JSX the component returns. *)
Definition render (isTauri : bool) (u : UiState) : Screen :=
  if truthy (pdfUrl u) || match fileContent u with Some _ => true | None => false end
  then Preview (fileName u)
         (if truthy (pdfUrl u) then Some (pdfUrl u) else None)
         (option_map content_area (fileContent u))
  else Listing
         (if negb isTauri then "View and manage your exported files."
          else "Please open your browser downloads to view and manage your exported files.")
         (if isTauri then Some (card_body u) else None).

Definition screen (s : Sys) : Screen := render (tauri (host s)) (ui s).

End View.

(** ** Vocabulary of the further properties *)

(** What a listing of the host gives: the sorted survivors, or [None]
    when [readDir] or one of the metadata fetches rejects. *)
Definition listed (h : Host) : option (list FileType) :=
  match folder h with
  | Some es =>
      if existsb (stat_fails h) es then None
      else Some (js_sort by_mtime_desc (surviving h es))
  | None => None
  end.

(** The state [loadFiles] ends in: the catalog replaced, [loading]
    off, the lines [logs] added to the console. *)
Definition with_catalog (cat : list FileType) (logs : list LogLine) (s : Sys) : Sys :=
  {| host := host s;
     ui := {| files := cat; loading := false;
              fileContent := fileContent (ui s); pdfUrl := pdfUrl (ui s);
              fileName := fileName (ui s) |};
     console := (console s ++ logs)%list |}.

(** No two entries of the folder share a name. *)
Definition folder_names_unique (h : Host) : Prop :=
  match folder h with
  | Some es => NoDup (map entryName es)
  | None => True
  end.

(** [pdfUrl] is empty or one of the live object URLs. *)
Definition pdf_url_live (s : Sys) : Prop :=
  pdfUrl (ui s) = ""
  \/ exists bytes, In (pdfUrl (ui s), bytes) (blobStore (host s)).

(** Lower case, read off the alphabet: a capital letter becomes the
    small letter standing at the same place, every other character is
    kept.  This is what "lower-cased" means in the statements; it does
    not go through [JsString.toLowerCase]. *)
Module Letters.





End Letters.

(** The lines under the header of a CSV text, as they are written: an
    empty line ([None]) or the cells of one data row. *)
Definition CsvLine : Type := option (list string).

Definition line_text (l : CsvLine) : string :=
  match l with
  | Some cells => JsString.join "," cells
  | None => EmptyString
  end.

(** The text of a CSV file with the given header and lines. *)
Definition csv_text (header : list string) (body : list CsvLine) : string :=
  JsString.join Papa.lf (JsString.join "," header :: map line_text body).

(** Opens that overlap.  [openFile] is an async function: it runs up
    to the [await] of its read ([readTextFile] or [readFile]) and gives
    the event loop back, with the list and its buttons still on
    screen; what follows the [await] runs later, in one piece.  An
    open is therefore two events: its beginning (the three setters of
    [openFile]; [readAnyFile] changes nothing before its [await]) and
    its completion (the part of [readAnyFile] from the [await] on, on
    the state of that moment).  Other events may come in between.
    With an extension other than [txt], [csv], [pdf] nothing is
    awaited and the completion does nothing.  No event changes the
    folder, so the read answers the same whenever it is served. *)
Inductive PreviewEvent : Type :=
| EvBegin (file : FileType)
| EvFinish (file : FileType)
| EvClose.

Definition run_event (ev : PreviewEvent) : Task unit :=
  match ev with
  | EvBegin file =>
      setPdfUrl "" ;;
      setFileContent None ;;
      setFileName (name file)
  | EvFinish file =>
      _ <- readAnyFile file ;;
      ret tt
  | EvClose => closePreview
  end.

Fixpoint run_events (evs : list PreviewEvent) : Task unit :=
  match evs with
  | [] => ret tt
  | ev :: evs' => run_event ev ;; run_events evs'
  end.

(** The state an open finds when it completes, the events [mid]
    having come in since it began in [s]. *)
Definition overlapped (file : FileType) (mid : list PreviewEvent) (s : Sys) : Sys :=
  exec (run_events mid) (cleared file s).

(** Further sample hosts. *)
Module Scenes.

Definition folder_dir : HostEntry :=
  {| entryName := "archive"; isFile := false; statResult := Some (Some 900%Z);
     textResult := None; binaryResult := None; removable := true |}.

Definition undated_txt : HostEntry :=
  {| entryName := "notes.txt"; isFile := true; statResult := Some None;
     textResult := None; binaryResult := None; removable := true |}.

Definition header_only_csv : HostEntry :=
  {| entryName := "empty.csv"; isFile := true; statResult := Some (Some 3%Z);
     textResult := Some "name,age"; binaryResult := None; removable := true |}.

Definition broken_pdf : HostEntry :=
  {| entryName := "broken.pdf"; isFile := true; statResult := Some (Some 4%Z);
     textResult := None; binaryResult := Some (Base64String "JVBER");
     removable := true |}.

Definition mixed : Sys :=
  Samples.sys_of [Samples.a_txt; folder_dir; undated_txt; header_only_csv;
                  broken_pdf; Samples.c_pdf].

(** No folder, and the host refuses to create it. *)
Definition locked : Sys :=
  {| host := {| tauri := true; folder := None; mkdirAllowed := false;
                blobStore := [] |};
     ui := initial_ui; console := [] |}.

(** The page opened in a browser. *)
Definition browser : Sys :=
  {| host := {| tauri := false; folder := None; mkdirAllowed := false;
                blobStore := [] |};
     ui := initial_ui; console := [] |}.

Definition shell_of (s : Sys) (writable : bool) : Shell :=
  {| page := s; clipboardPlugin := true;
     documentDirAnswer := Some "/home/u/Documents";
     joinAnswer := fun parts => Some (JsString.join "/" parts);
     writeAllowed := writable; clipboard := None; toasts := [] |}.

(** A text file named in capitals. *)
Definition report_txt : HostEntry :=
  {| entryName := "REPORT.TXT"; isFile := true; statResult := Some (Some 9%Z);
     textResult := Some "Q3"; binaryResult := None; removable := true |}.

(** A CSV file with empty lines between and after its rows. *)
Definition gappy_csv : HostEntry :=
  {| entryName := "gaps.csv"; isFile := true; statResult := Some (Some 8%Z);
     textResult :=
       Some (csv_text ["name"; "age"]
               [None; Some ["Alice"; "30"]; None; None; Some ["Bob"; "25"]; None]);
     binaryResult := None; removable := true |}.

Definition office : Sys :=
  Samples.sys_of [report_txt; gappy_csv; Samples.a_txt; Samples.c_pdf].

Definition file_report : FileType := {| name := "REPORT.TXT"; mtime := 9 |}.
Definition file_gaps : FileType := {| name := "gaps.csv"; mtime := 8 |}.

End Scenes.

(* ================================================================== *)
(** * Properties *)
(* ================================================================== *)

(** ** Strings *)

Section StringFacts.

Import JsString.

Lemma split_nonempty (sep : ascii) (s : string) : split sep s <> [].
Proof.
  destruct s as [|c s]; simpl; [discriminate|].
  destruct (Ascii.eqb c sep); [discriminate|].
  destruct (split sep s); discriminate.
Qed.


(** Without the separator the string is its own single piece. *)
Lemma split_no_sep (sep : ascii) (s : string) :
  contains sep s = false -> split sep s = [s].
Proof.
  induction s as [|c s IH]; simpl; intros H; [reflexivity|].
  apply orb_false_iff in H as [Hc Hs].
  rewrite Hc, (IH Hs). reflexivity.
Qed.

(** Splitting at an occurrence of the separator splits both sides. *)
Lemma split_app (sep : ascii) (a b : string) :
  split sep (a ++ String sep b) = (split sep a ++ split sep b)%list.
Proof.
  induction a as [|c a IH]; simpl.
  - now rewrite Ascii.eqb_refl.
  - rewrite IH. destruct (Ascii.eqb c sep); [reflexivity|].
    pose proof (split_nonempty sep a) as Hne.
    destruct (split sep a); [congruence | reflexivity].
Qed.




Lemma file_ext_no_dot (n : string) :
  contains "."%char n = false ->
  file_ext n = Some (toLowerCase n).
Proof.
  intros H. unfold file_ext. rewrite (split_no_sep _ _ H). reflexivity.
Qed.

Lemma file_ext_defined (n : string) : exists e, file_ext n = Some e.
Proof.
  unfold file_ext.
  pose proof (split_nonempty "."%char n) as H.
  induction (split "."%char n) as [|x l IH]; [congruence|].
  destruct l as [|y l]; [eexists; reflexivity|].
  apply IH. discriminate.
Qed.

End StringFacts.

(** ** Running tasks *)

Ltac unfold_task :=
  unfold exec, result, isTauri,
    setFiles, setLoading, setFileContent, setPdfUrl, setFileName,
    console_error, console_warn in *;
  unfold log, modify_ui, modify_host, get_host,
    try_catch, bind, when, ret, throw in *.

Lemma bind_ret_tt {A} (k : Task A) (s : Sys) : (ret tt ;; k) s = k s.
Proof. reflexivity. Qed.

(** A sequence that ends in [ret b] can only complete with [b]. *)
Lemma seq_normal_value {A B} (m : Task A) (k : Task B) (b : B) :
  (forall s r s', k s = (Normal r, s') -> r = b) ->
  forall s r s', (m ;; k) s = (Normal r, s') -> r = b.
Proof.
  intros Hk s r s'. unfold bind.
  destruct (m s) as [[a|e] s1]; [apply Hk | discriminate].
Qed.

(** ** [readAnyFile]: which block runs *)

Section Dispatch.

Variable file : FileType.

Lemma readAnyFile_txt :
  file_ext (name file) = Some "txt" ->
  forall s, readAnyFile file s
            = try_catch (preview_txt (EXPORT_FOLDER ++ "/" ++ name file) ;; ret PUnknown) read_failed s.
Proof. intros H s. unfold readAnyFile. rewrite H. reflexivity. Qed.

Lemma readAnyFile_csv :
  file_ext (name file) = Some "csv" ->
  forall s, readAnyFile file s
            = try_catch (preview_csv (EXPORT_FOLDER ++ "/" ++ name file) ;; ret PUnknown) read_failed s.
Proof. intros H s. unfold readAnyFile. rewrite H. reflexivity. Qed.

Lemma readAnyFile_pdf :
  file_ext (name file) = Some "pdf" ->
  forall s, readAnyFile file s
            = try_catch (preview_pdf (EXPORT_FOLDER ++ "/" ++ name file) ;; ret PUnknown) read_failed s.
Proof. intros H s. unfold readAnyFile. rewrite H. reflexivity. Qed.

Lemma readAnyFile_other (e : string) :
  file_ext (name file) = Some e ->
  e <> "txt" -> e <> "csv" -> e <> "pdf" ->
  forall s, readAnyFile file s = (Normal PUnknown, s).
Proof.
  intros H Ht Hc Hp s. unfold readAnyFile. rewrite H. simpl JsString.strict_eq.
  apply String.eqb_neq in Ht, Hc, Hp. rewrite Ht, Hc, Hp. reflexivity.
Qed.

End Dispatch.

Lemma readAnyFile_returns_unknown (file : FileType) (s : Sys) :
  result (readAnyFile file) s = Normal PUnknown.
Proof.
  unfold result, readAnyFile, try_catch.
  match goal with |- context [match ?b s with _ => _ end] =>
    destruct (b s) as [[r|e] s'] eqn:E end.
  - simpl. f_equal.
    revert E. apply seq_normal_value. apply seq_normal_value.
    apply seq_normal_value. unfold ret. intros ? ? ? [= <- _]. reflexivity.
  - reflexivity.
Qed.

(** ** The sort of the catalog *)

Section CatalogSort.

Lemma sort_insert_perm {A} (cmp : A -> A -> Z) (x : A) (l : list A) :
  Permutation (x :: l) (sort_insert cmp x l).
Proof.
  induction l as [|y l IH]; simpl; [reflexivity|].
  destruct (cmp x y <=? 0)%Z; [reflexivity|].
  rewrite perm_swap. now constructor.
Qed.

Lemma js_sort_perm {A} (cmp : A -> A -> Z) (l : list A) :
  Permutation l (js_sort cmp l).
Proof.
  induction l as [|x l IH]; simpl; [constructor|].
  rewrite <- sort_insert_perm. now constructor.
Qed.

Lemma sort_insert_hd (x y : FileType) (l : list FileType) :
  mtime_ge y x -> HdRel mtime_ge y l ->
  HdRel mtime_ge y (sort_insert by_mtime_desc x l).
Proof.
  intros Hyx Hl. destruct l as [|z l]; simpl.
  - now constructor.
  - destruct (by_mtime_desc x z <=? 0)%Z; constructor; auto.
    now inversion Hl.
Qed.

Lemma sort_insert_sorted (x : FileType) (l : list FileType) :
  Sorted mtime_ge l -> Sorted mtime_ge (sort_insert by_mtime_desc x l).
Proof.
  induction 1 as [|y l Hs IH Hhd]; simpl.
  - repeat constructor.
  - destruct (by_mtime_desc x y <=? 0)%Z eqn:E.
    + constructor; [now constructor|]. constructor.
      unfold by_mtime_desc, mtime_ge in *. lia.
    + constructor; [exact IH|]. apply sort_insert_hd; [|exact Hhd].
      unfold by_mtime_desc, mtime_ge in *. lia.
Qed.

Lemma js_sort_sorted (l : list FileType) :
  Sorted mtime_ge (js_sort by_mtime_desc l).
Proof.
  induction l as [|x l IH]; simpl; [constructor|].
  now apply sort_insert_sorted.
Qed.

Lemma mtime_ge_trans : Relations_1.Transitive mtime_ge.
Proof. intros a b c. unfold mtime_ge. lia. Qed.

Lemma js_sort_strongly_sorted (l : list FileType) :
  StronglySorted mtime_ge (js_sort by_mtime_desc l).
Proof.
  apply Sorted_StronglySorted; [exact mtime_ge_trans | apply js_sort_sorted].
Qed.

(** Inserting leaves each class of equal timestamps in its order, the
    new entry in front of its class. *)
Lemma sort_insert_class (t : Z) (x : FileType) (l : list FileType) :
  filter (with_mtime t) (sort_insert by_mtime_desc x l)
  = filter (with_mtime t) (x :: l).
Proof.
  induction l as [|y l IH]; [reflexivity|].
  simpl sort_insert. destruct (by_mtime_desc x y <=? 0)%Z eqn:E; [reflexivity|].
  simpl filter in *. rewrite IH.
  unfold with_mtime, by_mtime_desc in *.
  destruct (mtime x =? t)%Z eqn:Ex; [|reflexivity].
  destruct (mtime y =? t)%Z eqn:Ey; [|reflexivity].
  lia.
Qed.

Lemma js_sort_class (t : Z) (l : list FileType) :
  filter (with_mtime t) (js_sort by_mtime_desc l) = filter (with_mtime t) l.
Proof.
  induction l as [|x l IH]; [reflexivity|].
  simpl js_sort. rewrite sort_insert_class. simpl. now rewrite IH.
Qed.

(** [precedes] and [filter]. *)
Lemma filter_split {A} (p : A -> bool) (l : list A) :
  forall m1 a m2,
    filter p l = (m1 ++ a :: m2)%list ->
    exists l1 l2, l = (l1 ++ a :: l2)%list
                  /\ filter p l1 = m1 /\ filter p l2 = m2.
Proof.
  induction l as [|x l IH]; intros m1 a m2 H; simpl in H.
  - destruct m1; discriminate.
  - destruct (p x) eqn:Px.
    + destruct m1 as [|y m1]; simpl in H; injection H as -> H.
      * exists [], l. simpl. auto.
      * destruct (IH _ _ _ H) as (l1 & l2 & -> & <- & <-).
        exists (y :: l1), l2. simpl. rewrite Px. auto.
    + destruct (IH _ _ _ H) as (l1 & l2 & -> & <- & <-).
      exists (x :: l1), l2. simpl. rewrite Px. auto.
Qed.

Lemma precedes_filter_inv {A} (p : A -> bool) (a b : A) (l : list A) :
  precedes a b (filter p l) -> precedes a b l.
Proof.
  intros (m1 & m2 & m3 & H).
  destruct (filter_split p l _ _ _ H) as (l1 & r & -> & _ & Hr).
  destruct (filter_split p r _ _ _ Hr) as (l2 & l3 & -> & _ & _).
  now exists l1, l2, l3.
Qed.

Lemma precedes_filter {A} (p : A -> bool) (a b : A) (l : list A) :
  p a = true -> p b = true -> precedes a b l -> precedes a b (filter p l).
Proof.
  intros Pa Pb (l1 & l2 & l3 & ->).
  exists (filter p l1), (filter p l2), (filter p l3).
  rewrite filter_app. simpl. rewrite Pa, filter_app. simpl. now rewrite Pb.
Qed.

(** Stability, entry by entry. *)
Lemma js_sort_stable (a b : FileType) (l : list FileType) :
  mtime a = mtime b ->
  (precedes a b (js_sort by_mtime_desc l) <-> precedes a b l).
Proof.
  intros Hab.
  assert (Pa : with_mtime (mtime a) a = true) by apply Z.eqb_refl.
  assert (Pb : with_mtime (mtime a) b = true)
    by (unfold with_mtime; rewrite Hab; apply Z.eqb_refl).
  split; intros H.
  - apply (precedes_filter_inv (with_mtime (mtime a))).
    rewrite <- js_sort_class. now apply precedes_filter.
  - apply (precedes_filter_inv (with_mtime (mtime a))).
    rewrite js_sort_class. now apply precedes_filter.
Qed.

End CatalogSort.

(** ** [loadFiles] *)

Section Listing.

Lemma file_object_run (s : Sys) (e : HostEntry) :
  file_object (mkDirEntry (entryName e) (isFile e)) s
  = match stat_object (host s) e with
    | Some o => (Normal o, s)
    | None => (Thrown (FsError "stat" (EXPORT_FOLDER ++ "/" ++ entryName e)), s)
    end.
Proof.
  unfold file_object, stat_object, stat_answer, fs_stat. unfold_task.
  cbn [de_name de_isFile].
  destruct (isFile e); cbn [negb]; [|reflexivity].
  destruct (lookup _ (host s)) as [e'|]; [|reflexivity].
  destruct (statResult e'); reflexivity.
Qed.

Lemma stat_fails_object (h : Host) (e : HostEntry) :
  stat_fails h e = false <-> exists o, stat_object h e = Some o.
Proof.
  unfold stat_fails, stat_object.
  destruct (isFile e); simpl; [|split; eauto].
  destruct (stat_answer h (entryName e)); split; eauto.
  - discriminate.
  - intros [o H]. discriminate.
Qed.

Lemma surviving_cons (h : Host) (e : HostEntry) (es : list HostEntry) :
  surviving h (e :: es)
  = match stat_object h e with
    | Some (Some f) => f :: surviving h es
    | _ => surviving h es
    end.
Proof.
  unfold surviving, stat_object. simpl.
  destruct (isFile e); [|reflexivity].
  destruct (stat_answer h (entryName e)); reflexivity.
Qed.

(** Every fetch resolves: the join resolves with the objects in
    enumeration order. *)
Lemma promise_all_resolves (s : Sys) (es : list HostEntry) :
  existsb (stat_fails (host s)) es = false ->
  exists objs,
    promise_all (map file_object (dir_entries es)) s = (Normal objs, s)
    /\ filter_Boolean objs = surviving (host s) es.
Proof.
  induction es as [|e es IH]; intros H.
  - exists []. split; reflexivity.
  - cbn [existsb] in H. apply orb_false_iff in H as [He Hes].
    destruct (IH Hes) as (objs & Hrun & Hobjs).
    apply stat_fails_object in He as [o Ho].
    exists (o :: objs). split.
    + unfold dir_entries in *. cbn [map promise_all].
      unfold bind at 1. rewrite file_object_run, Ho.
      unfold bind at 1. rewrite Hrun. reflexivity.
    + rewrite surviving_cons, Ho. destruct o; simpl; now rewrite Hobjs.
Qed.

(** One fetch rejects: so does the join. *)
Lemma promise_all_rejects (s : Sys) (es : list HostEntry) :
  existsb (stat_fails (host s)) es = true ->
  exists err, promise_all (map file_object (dir_entries es)) s = (Thrown err, s).
Proof.
  induction es as [|e es IH]; intros H; [discriminate|].
  cbn [existsb] in H. unfold dir_entries in *. cbn [map promise_all].
  unfold bind at 1. rewrite file_object_run.
  destruct (stat_object (host s) e) as [o|] eqn:Ho; [|eauto].
  assert (He : stat_fails (host s) e = false)
    by (apply stat_fails_object; eauto).
  rewrite He in H. simpl in H.
  destruct (IH H) as [err Herr].
  unfold bind at 1. rewrite Herr. eauto.
Qed.

Lemma loadFiles_resolved (s : Sys) (es : list HostEntry) :
  tauri (host s) = true ->
  folder (host s) = Some es ->
  existsb (stat_fails (host s)) es = false ->
  files (ui (exec loadFiles s)) = js_sort by_mtime_desc (surviving (host s) es)
  /\ console (exec loadFiles s) = console s.
Proof.
  intros Ht Hf Hok.
  pose (s1 := {| host := host s;
                 ui := {| files := files (ui s); loading := true;
                          fileContent := fileContent (ui s);
                          pdfUrl := pdfUrl (ui s);
                          fileName := fileName (ui s) |};
                 console := console s |}).
  destruct (promise_all_resolves s1 es Hok) as (objs & Hrun & Hobjs).
  unfold loadFiles, fs_readDir. unfold_task. rewrite Ht. simpl.
  rewrite Hf. fold (dir_entries es). fold s1. rewrite Hrun. simpl.
  rewrite Hobjs. split; reflexivity.
Qed.

Lemma loadFiles_rejected (s : Sys) (es : list HostEntry) :
  tauri (host s) = true ->
  folder (host s) = Some es ->
  existsb (stat_fails (host s)) es = true ->
  files (ui (exec loadFiles s)) = []
  /\ exists err,
       console (exec loadFiles s)
       = (console s ++ [ConsoleError "Error listing files" err])%list.
Proof.
  intros Ht Hf Hbad.
  pose (s1 := {| host := host s;
                 ui := {| files := files (ui s); loading := true;
                          fileContent := fileContent (ui s);
                          pdfUrl := pdfUrl (ui s);
                          fileName := fileName (ui s) |};
                 console := console s |}).
  destruct (promise_all_rejects s1 es Hbad) as (err & Hrun).
  unfold loadFiles, fs_readDir. unfold_task. rewrite Ht. simpl.
  rewrite Hf. fold (dir_entries es). fold s1. rewrite Hrun. simpl.
  split; [reflexivity | now exists err].
Qed.

Lemma loadFiles_no_folder (s : Sys) :
  tauri (host s) = true ->
  folder (host s) = None ->
  files (ui (exec loadFiles s)) = [].
Proof.
  intros Ht Hf. unfold loadFiles, fs_readDir. unfold_task.
  rewrite Ht. simpl. rewrite Hf. reflexivity.
Qed.

End Listing.

(** ** Effects of the three preview blocks *)

Section PreviewEffects.

Lemma fs_readTextFile_state (p : string) (s : Sys) :
  fs_readTextFile p s = (result (fs_readTextFile p) s, s).
Proof.
  unfold fs_readTextFile. unfold_task.
  destruct (lookup p (host s)) as [e|]; [|reflexivity].
  destruct (textResult e); reflexivity.
Qed.

Lemma fs_readFile_state (p : string) (s : Sys) :
  fs_readFile p s = (result (fs_readFile p) s, s).
Proof.
  unfold fs_readFile. unfold_task.
  destruct (lookup p (host s)) as [e|]; [|reflexivity].
  destruct (binaryResult e); reflexivity.
Qed.

Lemma normalize_binary_state (b : BinaryRead) (s : Sys) :
  normalize_binary b s = (result (normalize_binary b) s, s).
Proof.
  unfold normalize_binary. unfold_task.
  destruct b as [raw|b64]; [reflexivity|].
  destruct (Base64.atob b64); reflexivity.
Qed.

(** Whether [normalize_binary] completes does not depend on the state. *)
Lemma normalize_binary_result (b : BinaryRead) (s s' : Sys) :
  result (normalize_binary b) s = result (normalize_binary b) s'.
Proof.
  unfold normalize_binary. unfold_task.
  destruct b as [raw|b64]; [reflexivity|].
  destruct (Base64.atob b64); reflexivity.
Qed.

Lemma readAnyFile_txt_exec (file : FileType) (s : Sys) :
  file_ext (name file) = Some "txt" ->
  exec (readAnyFile file) s
  = match result (fs_readTextFile (EXPORT_FOLDER ++ "/" ++ name file)) s with
    | Normal text => show_content (PTxt text) s
    | Thrown err => log_error "File read failed:" err s
    end.
Proof.
  intros H. unfold exec. rewrite (readAnyFile_txt file H).
  unfold try_catch, preview_txt, read_failed, bind at 1 2.
  rewrite fs_readTextFile_state.
  destruct (result (fs_readTextFile _) s); reflexivity.
Qed.

Lemma readAnyFile_csv_exec (file : FileType) (s : Sys) :
  file_ext (name file) = Some "csv" ->
  exec (readAnyFile file) s
  = match result (fs_readTextFile (EXPORT_FOLDER ++ "/" ++ name file)) s with
    | Normal text => show_content (PCsv (Papa.parse text)) s
    | Thrown err => log_error "File read failed:" err s
    end.
Proof.
  intros H. unfold exec. rewrite (readAnyFile_csv file H).
  unfold try_catch, preview_csv, read_failed, bind at 1 2.
  rewrite fs_readTextFile_state.
  destruct (result (fs_readTextFile _) s); reflexivity.
Qed.

Lemma readAnyFile_pdf_exec (file : FileType) (s : Sys) :
  file_ext (name file) = Some "pdf" ->
  exec (readAnyFile file) s
  = match result (fs_readFile (EXPORT_FOLDER ++ "/" ++ name file)) s with
    | Normal binary =>
        match result (normalize_binary binary) s with
        | Normal bytes => show_pdf bytes s
        | Thrown err => log_error "File read failed:" err s
        end
    | Thrown err => log_error "File read failed:" err s
    end.
Proof.
  intros H. unfold exec. rewrite (readAnyFile_pdf file H).
  unfold try_catch, preview_pdf, read_failed, bind at 1 2.
  rewrite fs_readFile_state.
  destruct (result (fs_readFile _) s) as [binary|err]; [|reflexivity].
  unfold bind at 1. rewrite normalize_binary_state.
  destruct (result (normalize_binary binary) s); reflexivity.
Qed.

End PreviewEffects.

(* ================================================================== *)
(** * The catalog *)
(* ================================================================== *)

(** C1, as the code has it: when the metadata fetch rejects for at
    least one regular file of the folder, [loadFiles] does not keep the
    other entries; the rejection of the join reaches the [catch], which
    logs it and sets the catalog to the empty list. *)
Theorem listing_aborts_when_stat_fails (s : Sys) (es : list HostEntry) :
  tauri (host s) = true ->
  folder (host s) = Some es ->
  existsb (stat_fails (host s)) es = true ->
  files (ui (exec loadFiles s)) = []
  /\ exists err,
       console (exec loadFiles s)
       = (console s ++ [ConsoleError "Error listing files" err])%list.
Proof. apply loadFiles_rejected. Qed.

Lemma listing_aborts_when_stat_fails_witness :
  files (ui (exec loadFiles Samples.flaky)) = [].
Proof.
  apply (listing_aborts_when_stat_fails Samples.flaky
           [Samples.a_txt; Samples.b_csv_nostat]); reflexivity.
Defined.

(** C1 fails as stated: in a folder holding [a.txt], whose metadata
    fetch resolves, and [b.csv], whose fetch rejects, [a.txt] survives
    but is not in the catalog [loadFiles] leaves. *)
Lemma listing_drops_surviving_entry :
  stat_fails (host Samples.flaky) Samples.b_csv_nostat = true
  /\ In Samples.file_a
        (surviving (host Samples.flaky) [Samples.a_txt; Samples.b_csv_nostat])
  /\ ~ In Samples.file_a (files (ui (exec loadFiles Samples.flaky))).
Proof.
  split; [reflexivity|]. split; [left; reflexivity|].
  vm_compute. intros [].
Qed.

(** C3: the catalog [loadFiles] leaves is sorted by modification time,
    newest first, and two of its entries with equal modification times
    stand in the order in which the directory enumeration gave them. *)
Theorem catalog_sorted_stable (s : Sys) :
  tauri (host s) = true ->
  StronglySorted mtime_ge (files (ui (exec loadFiles s)))
  /\ forall a b,
       mtime a = mtime b ->
       In a (files (ui (exec loadFiles s))) ->
       In b (files (ui (exec loadFiles s))) ->
       exists es,
         folder (host s) = Some es
         /\ (precedes a b (files (ui (exec loadFiles s)))
             <-> precedes a b (surviving (host s) es)).
Proof.
  intros Ht. destruct (folder (host s)) as [es|] eqn:Hf.
  - destruct (existsb (stat_fails (host s)) es) eqn:Hbad.
    + destruct (loadFiles_rejected s es Ht Hf Hbad) as [-> _].
      split; [constructor | intros a b _ []].
    + destruct (loadFiles_resolved s es Ht Hf Hbad) as [-> _].
      split; [apply js_sort_strongly_sorted|].
      intros a b Hab _ _. exists es. split; [reflexivity|].
      now apply js_sort_stable.
  - rewrite (loadFiles_no_folder s Ht Hf).
    split; [constructor | intros a b _ []].
Qed.

Lemma catalog_sorted_stable_witness :
  precedes Samples.file_c Samples.file_e
    (files (ui (exec loadFiles Samples.desktop))).
Proof.
  destruct (catalog_sorted_stable Samples.desktop eq_refl) as [_ H].
  destruct (H Samples.file_c Samples.file_e eq_refl) as (es & Hes & Hiff).
  - vm_compute. tauto.
  - vm_compute. tauto.
  - apply Hiff. injection Hes as <-.
    exists [Samples.file_a; Samples.file_b], [],
      [{| name := "TXT"; mtime := 7 |}].
    reflexivity.
Defined.

(* ================================================================== *)
(** * The preview dispatcher *)
(* ================================================================== *)

Section LetterCase.



End LetterCase.



(** C9: [readAnyFile] always resolves, and always with the [unknown]
    variant; what a successful block has read reaches the page through
    [setFileContent] or [setPdfUrl] only. *)
Theorem readAnyFile_value_is_unknown (file : FileType) (s : Sys) :
  result (readAnyFile file) s = Normal PUnknown
  /\ (forall text,
        file_ext (name file) = Some "txt" ->
        result (fs_readTextFile (EXPORT_FOLDER ++ "/" ++ name file)) s = Normal text ->
        exec (readAnyFile file) s = show_content (PTxt text) s)
  /\ (forall text,
        file_ext (name file) = Some "csv" ->
        result (fs_readTextFile (EXPORT_FOLDER ++ "/" ++ name file)) s = Normal text ->
        exec (readAnyFile file) s = show_content (PCsv (Papa.parse text)) s)
  /\ (forall binary bytes,
        file_ext (name file) = Some "pdf" ->
        result (fs_readFile (EXPORT_FOLDER ++ "/" ++ name file)) s = Normal binary ->
        result (normalize_binary binary) s = Normal bytes ->
        exec (readAnyFile file) s = show_pdf bytes s).
Proof.
  split; [apply readAnyFile_returns_unknown|]. repeat split.
  - intros text He Hr. now rewrite (readAnyFile_txt_exec file s He), Hr.
  - intros text He Hr. now rewrite (readAnyFile_csv_exec file s He), Hr.
  - intros binary bytes He Hr Hn.
    now rewrite (readAnyFile_pdf_exec file s He), Hr, Hn.
Qed.

Lemma readAnyFile_value_is_unknown_witness :
  result (readAnyFile Samples.file_e) Samples.desktop = Normal PUnknown
  /\ exec (readAnyFile Samples.file_e) Samples.desktop
     = show_pdf [x25; x50; x44; x46] Samples.desktop.
Proof.
  destruct (readAnyFile_value_is_unknown Samples.file_e Samples.desktop)
    as (Hv & _ & _ & Hpdf).
  split; [exact Hv|].
  apply (Hpdf (Base64String "JVBERg==")); reflexivity.
Defined.

(** C10: a name without any ['.'] is its own extension: a file called
    [txt], [csv] or [pdf], in any letter case, runs the block of that
    format. *)
Theorem bare_name_is_its_own_extension (file : FileType) (s : Sys) :
  JsString.contains "."%char (name file) = false ->
  file_ext (name file) = Some (JsString.toLowerCase (name file))
  /\ (JsString.toLowerCase (name file) = "txt" ->
      exec (readAnyFile file) s
      = match result (fs_readTextFile (EXPORT_FOLDER ++ "/" ++ name file)) s with
        | Normal text => show_content (PTxt text) s
        | Thrown err => log_error "File read failed:" err s
        end)
  /\ (JsString.toLowerCase (name file) = "csv" ->
      exec (readAnyFile file) s
      = match result (fs_readTextFile (EXPORT_FOLDER ++ "/" ++ name file)) s with
        | Normal text => show_content (PCsv (Papa.parse text)) s
        | Thrown err => log_error "File read failed:" err s
        end)
  /\ (JsString.toLowerCase (name file) = "pdf" ->
      exec (readAnyFile file) s
      = match result (fs_readFile (EXPORT_FOLDER ++ "/" ++ name file)) s with
        | Normal binary =>
            match result (normalize_binary binary) s with
            | Normal bytes => show_pdf bytes s
            | Thrown err => log_error "File read failed:" err s
            end
        | Thrown err => log_error "File read failed:" err s
        end).
Proof.
  intros Hdot. pose proof (file_ext_no_dot _ Hdot) as He.
  split; [exact He|]. repeat split; intros Hl; rewrite Hl in He.
  - now apply readAnyFile_txt_exec.
  - now apply readAnyFile_csv_exec.
  - now apply readAnyFile_pdf_exec.
Qed.

Lemma bare_name_is_its_own_extension_witness :
  fileContent (ui (exec (readAnyFile Samples.file_bare) Samples.desktop))
  = Some (PTxt "plain").
Proof.
  destruct (bare_name_is_its_own_extension Samples.file_bare Samples.desktop
              eq_refl) as (_ & Htxt & _).
  rewrite (Htxt eq_refl). reflexivity.
Defined.

(* ================================================================== *)
(** * Deleting *)
(* ================================================================== *)

Section Delete.

Lemma fs_remove_cases (p : string) (s : Sys) :
  (exists h', fs_remove p s
              = (Normal tt, {| host := h'; ui := ui s; console := console s |}))
  \/ (exists err, fs_remove p s = (Thrown err, s)).
Proof.
  unfold fs_remove. unfold_task.
  destruct (lookup p (host s)) as [e|]; [|right; eauto].
  destruct (folder (host s)) as [es|]; [|right; eauto].
  destruct (removable e); [left | right]; eauto.
Qed.

Lemma filter_all {A} (p : A -> bool) (l : list A) :
  (forall x, In x l -> p x = true) -> filter p l = l.
Proof.
  induction l as [|x l IH]; intros H; simpl; [reflexivity|].
  rewrite (H x (or_introl eq_refl)), IH; [reflexivity|].
  intros y Hy. apply H. now right.
Qed.

(** In a catalog with unique names the filter takes out [file] and
    nothing else. *)
Lemma filter_other_than (file : FileType) (l1 l2 : list FileType) :
  NoDup (map name (l1 ++ file :: l2)) ->
  filter (other_than file) (l1 ++ file :: l2) = (l1 ++ l2)%list.
Proof.
  intros Hnd. rewrite map_app in Hnd. simpl in Hnd.
  apply NoDup_remove_2 in Hnd. rewrite <- map_app in Hnd.
  rewrite filter_app. simpl. unfold other_than at 2.
  rewrite String.eqb_refl. simpl. rewrite <- filter_app.
  apply filter_all. intros x Hx. unfold other_than.
  destruct (String.eqb (name x) (name file)) eqn:E; [|reflexivity].
  apply String.eqb_eq in E. exfalso. apply Hnd. rewrite <- E.
  now apply in_map.
Qed.

End Delete.

(** C6: when the removal of the file succeeds, [deleteFile] takes the
    entry out of the catalog it holds, by a filter on the name and
    without listing the folder again: the entry is gone and, names
    being unique, every other entry stays where it was.  When the
    removal fails, the error is logged and the catalog is untouched. *)
Theorem delete_updates_catalog (file : FileType) (s : Sys) :
  tauri (host s) = true ->
  (forall u,
     result (fs_remove (EXPORT_FOLDER ++ "/" ++ name file)) s = Normal u ->
     files (ui (exec (deleteFile file) s)) = filter (other_than file) (files (ui s))
     /\ ~ In file (files (ui (exec (deleteFile file) s)))
     /\ (forall l1 l2,
           files (ui s) = (l1 ++ file :: l2)%list ->
           NoDup (map name (files (ui s))) ->
           files (ui (exec (deleteFile file) s)) = (l1 ++ l2)%list)
     /\ console (exec (deleteFile file) s) = console s)
  /\ (forall err,
        result (fs_remove (EXPORT_FOLDER ++ "/" ++ name file)) s = Thrown err ->
        ui (exec (deleteFile file) s) = ui s
        /\ host (exec (deleteFile file) s) = host s
        /\ console (exec (deleteFile file) s)
           = (console s ++ [ConsoleError "Error deleting file" err])%list).
Proof.
  intros Ht.
  destruct (fs_remove_cases (EXPORT_FOLDER ++ "/" ++ name file) s)
    as [[h' Hrun] | [e Hrun]].
  - assert (Hfiles : files (ui (exec (deleteFile file) s))
                     = filter (other_than file) (files (ui s))).
    { unfold deleteFile. unfold_task. cbv beta iota. rewrite Ht.
      cbn [negb]. rewrite Hrun. reflexivity. }
    split.
    + intros u _. split; [exact Hfiles|]. split; [|split].
      * rewrite Hfiles. intros Hin. apply filter_In in Hin as [_ Hp].
        unfold other_than in Hp. now rewrite String.eqb_refl in Hp.
      * intros l1 l2 Hl Hnd. rewrite Hfiles, Hl.
        apply filter_other_than. now rewrite <- Hl.
      * unfold deleteFile. unfold_task. cbv beta iota. rewrite Ht.
        cbn [negb]. rewrite Hrun. reflexivity.
    + intros err Hr. unfold result in Hr. rewrite Hrun in Hr. discriminate.
  - split.
    + intros u Hr. unfold result in Hr. rewrite Hrun in Hr. discriminate.
    + intros err Hr. unfold result in Hr. rewrite Hrun in Hr.
      injection Hr as ->.
      unfold deleteFile. unfold_task. cbv beta iota. rewrite Ht.
      cbn [negb]. rewrite Hrun. simpl. repeat split.
Qed.

Lemma delete_updates_catalog_witness :
  files (ui (exec (deleteFile Samples.file_a) (exec loadFiles Samples.desktop)))
  = [Samples.file_b; Samples.file_c; Samples.file_e; Samples.file_bare]
  /\ files (ui (exec (deleteFile Samples.file_e) (exec loadFiles Samples.desktop)))
     = files (ui (exec loadFiles Samples.desktop)).
Proof.
  destruct (delete_updates_catalog Samples.file_a
              (exec loadFiles Samples.desktop) eq_refl) as [Hok _].
  destruct (delete_updates_catalog Samples.file_e
              (exec loadFiles Samples.desktop) eq_refl) as [_ Hfail].
  split.
  - destruct (Hok tt eq_refl) as (_ & _ & Hrest & _).
    apply (Hrest [Samples.file_b]
             [Samples.file_c; Samples.file_e; Samples.file_bare]).
    + reflexivity.
    + vm_compute. repeat constructor; simpl; intuition discriminate.
  - destruct (Hfail (FsError "remove" "NepaliWallet/e.pdf") eq_refl) as [-> _].
    reflexivity.
Defined.

(* ================================================================== *)
(** * Ensuring the folder *)
(* ================================================================== *)

(** C8: [ensureFolderExists] never rejects, on the first call or on the
    second, and a second call leaves the host as the first one left it;
    once the folder is there, a call changes nothing at all. *)
Theorem ensureFolderExists_idempotent (s : Sys) :
  result ensureFolderExists s = Normal tt
  /\ result ensureFolderExists (exec ensureFolderExists s) = Normal tt
  /\ host (exec ensureFolderExists (exec ensureFolderExists s))
     = host (exec ensureFolderExists s)
  /\ ui (exec ensureFolderExists (exec ensureFolderExists s)) = ui s
  /\ (folder (host s) <> None -> exec ensureFolderExists s = s)
  /\ (folder (host (exec ensureFolderExists s)) <> None ->
      exec ensureFolderExists (exec ensureFolderExists s)
      = exec ensureFolderExists s).
Proof.
  destruct s as [[t [es|] allowed blobs] u c];
    [|destruct allowed];
    unfold ensureFolderExists, fs_exists, fs_mkdir; unfold_task; simpl;
    repeat split; try reflexivity; intros H; congruence.
Qed.

Lemma ensureFolderExists_idempotent_witness :
  exec ensureFolderExists (exec ensureFolderExists Samples.fresh)
  = exec ensureFolderExists Samples.fresh.
Proof.
  destruct (ensureFolderExists_idempotent Samples.fresh)
    as (_ & _ & _ & _ & _ & H).
  apply H. discriminate.
Defined.

(* ================================================================== *)
(** * Object URLs of the PDF preview *)
(* ================================================================== *)

Section ObjectUrls.

Lemma openFile_run (file : FileType) (s : Sys) :
  openFile file s = (Normal tt, exec (readAnyFile file) (cleared file s)).
Proof.
  unfold openFile, exec, cleared. unfold_task. cbv beta iota.
  cbn [host ui console files loading fileContent pdfUrl fileName].
  match goal with
  | |- context [readAnyFile file ?x] =>
      pose proof (readAnyFile_returns_unknown file x) as H;
      unfold result in H;
      destruct (readAnyFile file x) as [[r|e] s']
  end; simpl in *; [reflexivity | discriminate].
Qed.

Lemma run_op_normal (op : PreviewOp) (s : Sys) :
  run_op op s = (Normal tt, exec (run_op op) s).
Proof.
  destruct op as [file|]; simpl.
  - unfold exec. now rewrite openFile_run.
  - reflexivity.
Qed.

Lemma run_ops_cons (op : PreviewOp) (ops : list PreviewOp) (s : Sys) :
  exec (run_ops (op :: ops)) s = exec (run_ops ops) (exec (run_op op) s).
Proof.
  simpl. unfold exec at 1, bind. now rewrite run_op_normal.
Qed.




End ObjectUrls.

Section OpenAndUrl.


End OpenAndUrl.




(* ================================================================== *)
(** * Base64 *)
(* ================================================================== *)

Section Base64Facts.

Import Base64.

(** Lists three elements at a time. *)
Lemma list_ind3 {A} (P : list A -> Prop) :
  P [] -> (forall a, P [a]) -> (forall a b, P [a; b]) ->
  (forall a b c l, P l -> P (a :: b :: c :: l)) ->
  forall l, P l.
Proof.
  intros H0 H1 H2 H3 l.
  assert (H : P l /\ (forall a, P (a :: l)) /\ (forall a b, P (a :: b :: l))).
  { induction l as [|x l (IH0 & IH1 & IH2)]; [now auto|].
    repeat split; auto. }
  apply H.
Qed.

Lemma sextet_roundtrip (n : nat) :
  (n < 64)%nat -> sextet_of_char (char_of_sextet n) = Some n.
Proof.
  intros Hn.
  assert (Hall : forallb (fun k => match sextet_of_char (char_of_sextet k) with
                                   | Some m => Nat.eqb m k
                                   | None => false
                                   end) (seq 0 64) = true) by (vm_compute; reflexivity).
  rewrite forallb_forall in Hall.
  specialize (Hall n). rewrite in_seq in Hall.
  destruct (sextet_of_char (char_of_sextet n)) as [m|].
  - f_equal. apply Nat.eqb_eq. apply Hall. lia.
  - discriminate Hall. lia.
Qed.

(** No character of the alphabet is white space or the padding. *)
Lemma char_of_sextet_plain (n : nat) :
  is_whitespace (char_of_sextet n) = false
  /\ Ascii.eqb (char_of_sextet n) pad_char = false.
Proof.
  assert (Hall : forallb (fun c => negb (is_whitespace c)
                                   && negb (Ascii.eqb c pad_char))
                   ("A"%char :: alphabet) = true) by (vm_compute; reflexivity).
  rewrite forallb_forall in Hall.
  assert (Hin : In (char_of_sextet n) ("A"%char :: alphabet)).
  { unfold char_of_sextet.
    destruct (nth_in_or_default n alphabet "A"%char) as [H | ->];
      [now right | now left]. }
  apply Hall in Hin. apply andb_true_iff in Hin as [Hw Hp].
  now rewrite negb_true_iff in Hw, Hp.
Qed.

Lemma encode_chars_shape (l : list byte) :
  encode_chars l = (map char_of_sextet (sextets l) ++ padding l)%list.
Proof.
  induction l as [| a | a b | a b c l IH] using list_ind3; try reflexivity.
  cbn [encode_chars sextets padding map app]. now rewrite IH.
Qed.

Lemma padding_cases (l : list byte) :
  padding l = [] \/ padding l = [pad_char] \/ padding l = [pad_char; pad_char].
Proof.
  induction l as [| a | a b | a b c l IH] using list_ind3; simpl; auto.
Qed.

Lemma encode_chars_length (l : list byte) :
  (List.length (encode_chars l) mod 4 = 0)%nat.
Proof.
  induction l as [| a | a b | a b c l IH] using list_ind3; try reflexivity.
  cbn [encode_chars List.length].
  change (S (S (S (S ?n)))) with (1 * 4 + n)%nat.
  rewrite Nat.add_comm, Nat.Div0.mod_add. exact IH.
Qed.

Lemma sextets_length (l : list byte) :
  (List.length (sextets l) mod 4 <> 1)%nat.
Proof.
  induction l as [| a | a b | a b c l IH] using list_ind3;
    try (simpl; discriminate).
  cbn [sextets List.length].
  change (S (S (S (S ?n)))) with (1 * 4 + n)%nat.
  rewrite Nat.add_comm, Nat.Div0.mod_add. exact IH.
Qed.

Lemma encode_chars_no_whitespace (l : list byte) :
  filter (fun c => negb (is_whitespace c)) (encode_chars l) = encode_chars l.
Proof.
  apply filter_all. intros c Hc. rewrite encode_chars_shape in Hc.
  apply in_app_or in Hc as [Hc | Hc].
  - apply in_map_iff in Hc as (n & <- & _).
    now rewrite (proj1 (char_of_sextet_plain n)).
  - destruct (padding_cases l) as [H | [H | H]]; rewrite H in Hc;
      simpl in Hc; intuition (subst; reflexivity).
Qed.

Lemma strip_padding_encoded (ns : list nat) (pad : list ascii) :
  pad = [] \/ pad = [pad_char] \/ pad = [pad_char; pad_char] ->
  strip_padding (map char_of_sextet ns ++ pad) = map char_of_sextet ns.
Proof.
  intros Hpad. induction ns as [|n ns IH].
  - destruct Hpad as [-> | [-> | ->]]; reflexivity.
  - cbn [map app strip_padding].
    rewrite (proj2 (char_of_sextet_plain n)). cbn [andb]. now rewrite IH.
Qed.

Lemma sextets_of_encoded (ns : list nat) :
  Forall (fun n => n < 64)%nat ns ->
  sextets_of (map char_of_sextet ns) = Some ns.
Proof.
  induction 1 as [|n ns Hn _ IH]; [reflexivity|].
  cbn [map sextets_of]. now rewrite (sextet_roundtrip n Hn), IH.
Qed.

Lemma byte_to_nat_bound (b : byte) : (Byte.to_nat b < 256)%nat.
Proof.
  pose proof (Byte.to_nat_bounded b). lia.
Qed.

Lemma sextets_bound (l : list byte) : Forall (fun n => n < 64)%nat (sextets l).
Proof.
  induction l as [| a | a b | a b c l IH] using list_ind3;
    cbn [sextets]; repeat apply Forall_cons;
    try apply Forall_nil; try exact IH;
    try (pose proof (byte_to_nat_bound a));
    try (pose proof (byte_to_nat_bound b));
    try (pose proof (byte_to_nat_bound c));
    lia.
Qed.

(** Regrouping 6-bit values into bytes undoes the grouping of bytes
    into 6-bit values. *)
Lemma bytes_of_sextets_inv (l : list byte) :
  bytes_of_sextets (sextets l) = map Byte.to_nat l.
Proof.
  induction l as [| a | a b | a b c l IH] using list_ind3;
    cbn [sextets bytes_of_sextets map];
    try rewrite IH;
    try (pose proof (byte_to_nat_bound a));
    try (pose proof (byte_to_nat_bound b));
    try (pose proof (byte_to_nat_bound c));
    repeat (f_equal; try lia).
Qed.

Lemma char_codes_of_bytes (l : list byte) :
  char_codes (string_of_list_ascii (map ascii_of_nat (map Byte.to_nat l))) = l.
Proof.
  induction l as [|b l IH]; [reflexivity|].
  cbn [map string_of_list_ascii char_codes].
  now rewrite <- ascii_of_byte_via_nat, byte_of_ascii_of_byte, IH.
Qed.

(** [atob] undoes [encode]. *)
Lemma atob_encode (l : list byte) :
  atob (encode l)
  = Some (string_of_list_ascii (map ascii_of_nat (map Byte.to_nat l))).
Proof.
  unfold atob, encode.
  rewrite list_ascii_of_string_of_list_ascii, encode_chars_no_whitespace.
  rewrite encode_chars_length. cbn [Nat.eqb].
  rewrite encode_chars_shape, (strip_padding_encoded _ _ (padding_cases l)).
  rewrite length_map.
  destruct (Nat.eqb_spec (List.length (sextets l) mod 4) 1) as [E|_];
    [now apply sextets_length in E|].
  now rewrite (sextets_of_encoded _ (sextets_bound l)), bytes_of_sextets_inv.
Qed.

End Base64Facts.

(** C7: the bytes handed to the blob are the bytes [b] of the file,
    whether [readFile] resolved with [b] as raw bytes or with the
    base64 text of [b]; the state a PDF preview leads to is the same in
    both cases. *)
Theorem binary_read_normalized (b : list byte) (s : Sys) :
  normalize_binary (RawBytes b) s = (Normal b, s)
  /\ normalize_binary (Base64String (Base64.encode b)) s = (Normal b, s)
  /\ forall file,
       file_ext (name file) = Some "pdf" ->
       result (fs_readFile (EXPORT_FOLDER ++ "/" ++ name file)) s
         = Normal (RawBytes b)
       \/ result (fs_readFile (EXPORT_FOLDER ++ "/" ++ name file)) s
            = Normal (Base64String (Base64.encode b)) ->
       exec (readAnyFile file) s = show_pdf b s.
Proof.
  assert (H64 : normalize_binary (Base64String (Base64.encode b)) s
                = (Normal b, s)).
  { unfold normalize_binary. rewrite atob_encode, char_codes_of_bytes.
    reflexivity. }
  split; [reflexivity|]. split; [exact H64|].
  intros file He [Hr | Hr]; rewrite (readAnyFile_pdf_exec file s He), Hr.
  - reflexivity.
  - unfold result. now rewrite H64.
Qed.

Lemma binary_read_normalized_witness :
  exec (readAnyFile Samples.file_c) Samples.desktop
  = show_pdf [x25; x50; x44; x46] Samples.desktop
  /\ exec (readAnyFile Samples.file_e) Samples.desktop
     = show_pdf [x25; x50; x44; x46] Samples.desktop.
Proof.
  destruct (binary_read_normalized [x25; x50; x44; x46] Samples.desktop)
    as (_ & _ & H).
  split; apply H; try reflexivity.
  - left. reflexivity.
  - right. reflexivity.
Defined.

(* ================================================================== *)
(** * The tabular preview *)
(* ================================================================== *)

Section Csv.

Import JsString.

Lemma contains_app (c : ascii) (a b : string) :
  contains c (a ++ b) = contains c a || contains c b.
Proof.
  induction a as [|d a IH]; simpl; [reflexivity|].
  now rewrite IH, orb_assoc.
Qed.

Lemma split_app_sep (sep : ascii) (x rest : string) :
  contains sep x = false ->
  split sep (x ++ String sep rest) = x :: split sep rest.
Proof.
  intros H. now rewrite split_app, (split_no_sep _ _ H).
Qed.

(** Splitting undoes joining, for pieces free of the separator. *)
Lemma split_join (sep : ascii) (cells : list string) :
  cells <> [] ->
  Forall (fun c => contains sep c = false) cells ->
  split sep (join (String sep EmptyString) cells) = cells.
Proof.
  intros Hne Hall. induction Hall as [|x l Hx Hl IH]; [congruence|].
  destruct l as [|y l].
  - simpl. now apply split_no_sep.
  - change (join (String sep EmptyString) (x :: y :: l))
      with (x ++ String sep (join (String sep EmptyString) (y :: l))).
    rewrite (split_app_sep _ _ _ Hx), IH; [reflexivity | discriminate].
Qed.

Lemma contains_join (c sep : ascii) (cells : list string) :
  Ascii.eqb sep c = false ->
  Forall (fun x => contains c x = false) cells ->
  contains c (join (String sep EmptyString) cells) = false.
Proof.
  intros Hsep Hall. induction Hall as [|x l Hx Hl IH]; [reflexivity|].
  destruct l as [|y l]; [exact Hx|].
  change (join (String sep EmptyString) (x :: y :: l))
    with (x ++ String sep (join (String sep EmptyString) (y :: l))).
  rewrite contains_app, Hx. cbn [orb contains]. now rewrite Hsep, IH.
Qed.

Lemma combine_fst {A B} (a : list A) (b : list B) :
  List.length b = List.length a -> map fst (combine a b) = a.
Proof.
  revert b. induction a as [|x a IH]; intros [|y b] H; simpl in *;
    try discriminate; [reflexivity|].
  f_equal. apply IH. now injection H.
Qed.

Lemma combine_snd {A B} (a : list A) (b : list B) :
  List.length b = List.length a -> map snd (combine a b) = b.
Proof.
  revert b. induction a as [|x a IH]; intros [|y b] H; simpl in *;
    try discriminate; [reflexivity|].
  f_equal. apply IH. now injection H.
Qed.

Lemma parse_table (header : list string) (rows : list (list string))
      (lines : list string) :
  header <> [] ->
  Forall (fun h => contains Papa.comma h = false) header ->
  Forall (fun h => contains Papa.newline h = false) header ->
  Forall (fun l => contains Papa.newline l = false) lines ->
  filter Papa.nonempty lines = map (join ",") rows ->
  Forall (fun cells => List.length cells = List.length header
                       /\ Forall (fun c => contains Papa.comma c = false) cells)
         rows ->
  Papa.parse (join Papa.lf (join "," header :: lines))
  = map (combine header) rows.
Proof.
  intros Hne Hcomma Hnl Hlines Hfilter Hrows.
  unfold Papa.parse, Papa.lf.
  rewrite split_join; [| discriminate |].
  2:{ constructor; [|exact Hlines].
      apply (contains_join Papa.newline Papa.comma); [reflexivity | exact Hnl]. }
  change "," with (String Papa.comma EmptyString) in *.
  rewrite (split_join _ header Hne Hcomma), Hfilter, map_map.
  apply map_ext_in. intros cells Hin.
  rewrite Forall_forall in Hrows. destruct (Hrows cells Hin) as [Hlen Hc].
  rewrite split_join; [reflexivity | | exact Hc].
  intros ->. destruct header; [congruence | discriminate].
Qed.

End Csv.

Section CsvBody.

(** The data rows among the written lines are the lines the parser
    keeps. *)
Lemma kept_lines (body : list CsvLine) :
  Forall (fun l => match l with
                   | Some cells => JsString.join "," cells <> EmptyString
                   | None => True
                   end) body ->
  filter Papa.nonempty (map line_text body)
  = map (JsString.join ",") (filter_Boolean body).
Proof.
  induction 1 as [|l body Hl _ IH]; [reflexivity|].
  destruct l as [cells|]; cbn [map line_text filter filter_Boolean].
  - destruct (JsString.join "," cells) eqn:E; [congruence|].
    cbn [Papa.nonempty]. now rewrite IH.
  - cbn [Papa.nonempty]. exact IH.
Qed.

Lemma records_of_rows (header : list string) (rows : list (list string)) :
  Forall (fun cells =>
            List.length cells = List.length header
            /\ Forall (fun c => JsString.contains Papa.comma c = false) cells)
         rows ->
  Forall2 (fun record cells =>
             map fst record = header /\ map snd record = cells)
    (map (combine header) rows) rows.
Proof.
  induction 1 as [|cells rows [Hlen _] _ IH]; simpl; constructor; [|exact IH].
  split; [now apply combine_fst | now apply combine_snd].
Qed.

End CsvBody.

(** C5: a [.csv] file whose text is a header line of [n] column names
    followed by lines that are either empty or one of [m] non-empty
    data rows of [n] cells is previewed as [m] records, the empty
    lines being skipped; each record lists the header names, in column
    order, with the cells of its row as strings. *)
Theorem csv_preview_records (file : FileType) (s : Sys)
        (header : list string) (body : list CsvLine) :
  file_ext (name file) = Some "csv" ->
  header <> [] ->
  Forall (fun h => JsString.contains Papa.comma h = false
                   /\ JsString.contains Papa.newline h = false) header ->
  Forall (fun l =>
            match l with
            | Some cells =>
                List.length cells = List.length header
                /\ Forall (fun c => JsString.contains Papa.comma c = false
                                    /\ JsString.contains Papa.newline c = false)
                          cells
                /\ JsString.join "," cells <> EmptyString
            | None => True
            end) body ->
  result (fs_readTextFile (EXPORT_FOLDER ++ "/" ++ name file)) s
    = Normal (csv_text header body) ->
  exists records,
    fileContent (ui (exec (readAnyFile file) s)) = Some (PCsv records)
    /\ records = map (combine header) (filter_Boolean body)
    /\ List.length records = List.length (filter_Boolean body)
    /\ Forall2 (fun record cells =>
                  map fst record = header /\ map snd record = cells)
         records (filter_Boolean body).
Proof.
  intros He Hne Hheader Hbody Hread.
  assert (Hcomma : Forall (fun h => JsString.contains Papa.comma h = false) header)
    by (eapply Forall_impl; [|exact Hheader]; now intros h [H _]).
  assert (Hnl : Forall (fun h => JsString.contains Papa.newline h = false) header)
    by (eapply Forall_impl; [|exact Hheader]; now intros h [_ H]).
  assert (Hlines : Forall (fun l => JsString.contains Papa.newline l = false)
                     (map line_text body)).
  { apply Forall_map. eapply Forall_impl; [|exact Hbody].
    intros [cells|] H; [|reflexivity]. destruct H as (_ & Hcells & _).
    apply (contains_join Papa.newline Papa.comma); [reflexivity|].
    eapply Forall_impl; [|exact Hcells]. now intros c [_ H]. }
  assert (Hkept : filter Papa.nonempty (map line_text body)
                  = map (JsString.join ",") (filter_Boolean body)).
  { apply kept_lines. eapply Forall_impl; [|exact Hbody].
    intros [cells|] H; [now destruct H as (_ & _ & H) | exact I]. }
  assert (Hrows : Forall (fun cells =>
                            List.length cells = List.length header
                            /\ Forall (fun c => JsString.contains Papa.comma c = false)
                                      cells)
                         (filter_Boolean body)).
  { clear Hread Hlines Hkept.
    induction Hbody as [|l body Hl _ IH]; [constructor|].
    destruct l as [cells|]; cbn [filter_Boolean]; [|exact IH].
    constructor; [|exact IH]. destruct Hl as (Hlen & Hcells & _).
    split; [exact Hlen|]. eapply Forall_impl; [|exact Hcells].
    now intros c [H _]. }
  exists (map (combine header) (filter_Boolean body)).
  rewrite (readAnyFile_csv_exec file s He), Hread. unfold csv_text.
  rewrite (parse_table header (filter_Boolean body) (map line_text body)
             Hne Hcomma Hnl Hlines Hkept Hrows).
  split; [reflexivity|]. split; [reflexivity|].
  split; [apply length_map|].
  now apply records_of_rows.
Qed.

Lemma csv_preview_records_witness :
  exists records,
    fileContent (ui (exec (readAnyFile Scenes.file_gaps) Scenes.office))
    = Some (PCsv records)
    /\ records = [[("name", "Alice"); ("age", "30")];
                  [("name", "Bob"); ("age", "25")]].
Proof.
  destruct (csv_preview_records Scenes.file_gaps Scenes.office
              ["name"; "age"]
              [None; Some ["Alice"; "30"]; None; None; Some ["Bob"; "25"]; None])
    as (records & Hshown & Hrec & _).
  - reflexivity.
  - discriminate.
  - repeat constructor.
  - repeat (constructor; try discriminate).
  - reflexivity.
  - exists records. split; [exact Hshown | exact Hrec].
Defined.

(* ================================================================== *)
(** * Further properties of the catalog *)
(* ================================================================== *)

Section ListingOutcome.

(** The whole of what [loadFiles] does inside the desktop host. *)
Lemma loadFiles_run (s : Sys) :
  tauri (host s) = true ->
  exists logs,
    loadFiles s
    = (Normal tt,
       with_catalog (match listed (host s) with Some c => c | None => [] end)
         logs s)
    /\ match listed (host s) with
       | Some _ => logs = []
       | None => exists err, logs = [ConsoleError "Error listing files" err]
       end.
Proof.
  intros Ht.
  pose (s1 := {| host := host s;
                 ui := {| files := files (ui s); loading := true;
                          fileContent := fileContent (ui s);
                          pdfUrl := pdfUrl (ui s);
                          fileName := fileName (ui s) |};
                 console := console s |}).
  unfold listed. destruct (folder (host s)) as [es|] eqn:Hf.
  - destruct (existsb (stat_fails (host s)) es) eqn:Hbad.
    + destruct (promise_all_rejects s1 es Hbad) as (err & Hrun).
      exists [ConsoleError "Error listing files" err].
      split; [|now exists err].
      unfold loadFiles, fs_readDir. unfold_task. rewrite Ht. simpl.
      rewrite Hf. fold (dir_entries es). fold s1. rewrite Hrun. reflexivity.
    + destruct (promise_all_resolves s1 es Hbad) as (objs & Hrun & Hobjs).
      exists []. split; [|reflexivity].
      unfold loadFiles, fs_readDir. unfold_task. rewrite Ht. simpl.
      rewrite Hf. fold (dir_entries es). fold s1. rewrite Hrun. simpl.
      rewrite Hobjs. unfold with_catalog. now rewrite app_nil_r.
  - exists [ConsoleError "Error listing files" (FsError "readDir" EXPORT_FOLDER)].
    split; [|eauto].
    unfold loadFiles, fs_readDir. unfold_task. rewrite Ht. simpl.
    rewrite Hf. reflexivity.
Qed.

Lemma loadFiles_browser (s : Sys) :
  tauri (host s) = false -> loadFiles s = (Normal tt, s).
Proof.
  intros Ht. unfold loadFiles. unfold_task. now rewrite Ht.
Qed.

Lemma surviving_in (h : Host) (es : list HostEntry) (f : FileType) :
  In f (surviving h es) ->
  exists e m,
    In e es /\ isFile e = true /\ entryName e = name f
    /\ stat_answer h (name f) = Some m
    /\ mtime f = match m with Some t => t | None => 0%Z end.
Proof.
  induction es as [|e es IH]; [intros []|].
  rewrite surviving_cons. unfold stat_object.
  destruct (isFile e) eqn:Hfile.
  - destruct (stat_answer h (entryName e)) as [m|] eqn:Hstat.
    + intros [<- | Hin].
      * exists e, m. simpl. auto.
      * destruct (IH Hin) as (e' & m' & He' & H). exists e', m'.
        split; [now right | exact H].
    + intros Hin. destruct (IH Hin) as (e' & m' & He' & H).
      exists e', m'. split; [now right | exact H].
  - intros Hin. destruct (IH Hin) as (e' & m' & He' & H).
    exists e', m'. split; [now right | exact H].
Qed.

Lemma surviving_names (h : Host) (es : list HostEntry) :
  existsb (stat_fails h) es = false ->
  map name (surviving h es) = map entryName (filter isFile es).
Proof.
  induction es as [|e es IH]; [reflexivity|].
  cbn [existsb filter]. intros H. apply orb_false_iff in H as [He Hes].
  rewrite surviving_cons. unfold stat_fails in He. unfold stat_object.
  destruct (isFile e).
  - destruct (stat_answer h (entryName e)); [|discriminate].
    simpl. now rewrite (IH Hes).
  - now apply IH.
Qed.

Lemma in_js_sort {A} (cmp : A -> A -> Z) (x : A) (l : list A) :
  In x (js_sort cmp l) <-> In x l.
Proof.
  split; apply Permutation_in;
    [apply Permutation_sym|]; apply js_sort_perm.
Qed.

(** Where an entry of the listed catalog comes from. *)
Lemma listed_entry_origin (h : Host) (cat : list FileType) (f : FileType) :
  listed h = Some cat ->
  In f cat ->
  exists es e m,
    folder h = Some es
    /\ In e es /\ isFile e = true /\ entryName e = name f
    /\ stat_answer h (name f) = Some m
    /\ mtime f = match m with Some t => t | None => 0%Z end.
Proof.
  unfold listed. destruct (folder h) as [es|]; [|discriminate].
  destruct (existsb (stat_fails h) es); [discriminate|].
  intros [= <-] Hin. apply in_js_sort in Hin.
  destruct (surviving_in _ _ _ Hin) as (e & m & H).
  now exists es, e, m.
Qed.

Lemma listed_sorted (h : Host) (cat : list FileType) :
  listed h = Some cat -> StronglySorted mtime_ge cat.
Proof.
  unfold listed. destruct (folder h) as [es|]; [|discriminate].
  destruct (existsb (stat_fails h) es); [discriminate|].
  intros [= <-]. apply js_sort_strongly_sorted.
Qed.

End ListingOutcome.

(** X1: only regular files are listed.  Every entry of the catalog
    [loadFiles] leaves carries the name of a regular file of the
    folder, and as its time the modification time [stat] gave for that
    name, 0 when [stat] gave none. *)
Theorem catalog_lists_regular_files (s : Sys) (f : FileType) :
  tauri (host s) = true ->
  In f (files (ui (exec loadFiles s))) ->
  exists es e m,
    folder (host s) = Some es
    /\ In e es /\ isFile e = true /\ entryName e = name f
    /\ stat_answer (host s) (name f) = Some m
    /\ mtime f = match m with Some t => t | None => 0%Z end.
Proof.
  intros Ht Hin. destruct (loadFiles_run s Ht) as (logs & Hrun & _).
  unfold exec in Hin. rewrite Hrun in Hin. simpl in Hin.
  destruct (listed (host s)) as [cat|] eqn:Hl; [|destruct Hin].
  exact (listed_entry_origin _ _ _ Hl Hin).
Qed.

Lemma catalog_lists_regular_files_witness :
  exists es e m,
    folder (host Scenes.mixed) = Some es
    /\ In e es /\ isFile e = true /\ entryName e = "notes.txt"
    /\ stat_answer (host Scenes.mixed) "notes.txt" = Some m
    /\ 0%Z = match m with Some t => t | None => 0%Z end.
Proof.
  apply (catalog_lists_regular_files Scenes.mixed
           {| name := "notes.txt"; mtime := 0 |}); [reflexivity|].
  vm_compute. tauto.
Defined.

(** X2: when the folder can be read and every metadata fetch resolves,
    the catalog holds each regular file of the folder exactly once: it
    is a rearrangement of the surviving entries, whose names are the
    names of the regular files in enumeration order. *)
Theorem catalog_complete (s : Sys) (es : list HostEntry) :
  tauri (host s) = true ->
  folder (host s) = Some es ->
  existsb (stat_fails (host s)) es = false ->
  Permutation (files (ui (exec loadFiles s))) (surviving (host s) es)
  /\ map name (surviving (host s) es) = map entryName (filter isFile es)
  /\ List.length (files (ui (exec loadFiles s)))
     = List.length (filter isFile es).
Proof.
  intros Ht Hf Hok.
  destruct (loadFiles_resolved s es Ht Hf Hok) as [Hfiles _].
  assert (Hperm : Permutation (files (ui (exec loadFiles s)))
                    (surviving (host s) es)).
  { rewrite Hfiles. apply Permutation_sym, js_sort_perm. }
  split; [exact Hperm|]. split; [now apply surviving_names|].
  rewrite (Permutation_length Hperm), <- (length_map name).
  now rewrite (surviving_names _ _ Hok), length_map.
Qed.

Lemma catalog_complete_witness :
  List.length (files (ui (exec loadFiles Scenes.mixed))) = 5%nat.
Proof.
  destruct (catalog_complete Scenes.mixed
              [Samples.a_txt; Scenes.folder_dir; Scenes.undated_txt;
               Scenes.header_only_csv; Scenes.broken_pdf; Samples.c_pdf]
              eq_refl eq_refl eq_refl) as (_ & _ & H).
  exact H.
Defined.

(** X3: [loadFiles] never rejects.  It leaves the host, the preview
    ([fileContent], [pdfUrl], [fileName]) as they were and, inside the
    desktop host, always ends with [loading] off. *)
Theorem loadFiles_settles (s : Sys) :
  result loadFiles s = Normal tt
  /\ host (exec loadFiles s) = host s
  /\ fileContent (ui (exec loadFiles s)) = fileContent (ui s)
  /\ pdfUrl (ui (exec loadFiles s)) = pdfUrl (ui s)
  /\ fileName (ui (exec loadFiles s)) = fileName (ui s)
  /\ (tauri (host s) = true -> loading (ui (exec loadFiles s)) = false).
Proof.
  destruct (tauri (host s)) eqn:Ht.
  - destruct (loadFiles_run s Ht) as (logs & Hrun & _).
    unfold result, exec. rewrite Hrun. simpl. repeat split.
  - unfold result, exec. rewrite (loadFiles_browser s Ht). simpl.
    repeat split. discriminate.
Qed.

Lemma loadFiles_settles_witness :
  loading (ui (exec loadFiles Scenes.locked)) = false.
Proof.
  destruct (loadFiles_settles Scenes.locked) as (_ & _ & _ & _ & _ & H).
  apply H. reflexivity.
Defined.

(** X4: when the folder cannot be read, [loadFiles] empties the
    catalog and logs the rejection of [readDir] as "Error listing
    files"; nothing else changes. *)
Theorem missing_folder_lists_nothing (s : Sys) :
  tauri (host s) = true ->
  folder (host s) = None ->
  exec loadFiles s
  = with_catalog []
      [ConsoleError "Error listing files" (FsError "readDir" EXPORT_FOLDER)] s.
Proof.
  intros Ht Hf. unfold exec, loadFiles, fs_readDir. unfold_task.
  rewrite Ht. simpl. rewrite Hf. reflexivity.
Qed.

Lemma missing_folder_lists_nothing_witness :
  files (ui (exec loadFiles Scenes.locked)) = []
  /\ console (exec loadFiles Scenes.locked)
     = [ConsoleError "Error listing files" (FsError "readDir" "NepaliWallet")].
Proof.
  rewrite (missing_folder_lists_nothing Scenes.locked eq_refl eq_refl).
  split; reflexivity.
Defined.

(** X5: refreshing twice is the same as refreshing once, as far as the
    page shows: the second [loadFiles] leaves the state of the page
    and the host exactly as the first left them. *)
Theorem refresh_idempotent (s : Sys) :
  ui (exec loadFiles (exec loadFiles s)) = ui (exec loadFiles s)
  /\ host (exec loadFiles (exec loadFiles s)) = host (exec loadFiles s).
Proof.
  destruct (tauri (host s)) eqn:Ht.
  - destruct (loadFiles_run s Ht) as (logs & Hrun & _).
    set (s1 := with_catalog _ logs s) in Hrun.
    assert (E : exec loadFiles s = s1) by (unfold exec; now rewrite Hrun).
    rewrite E.
    assert (Ht1 : tauri (host s1) = true) by exact Ht.
    destruct (loadFiles_run s1 Ht1) as (logs1 & Hrun1 & _).
    unfold exec. rewrite Hrun1. split; reflexivity.
  - assert (E : exec loadFiles s = s)
      by (unfold exec; now rewrite (loadFiles_browser s Ht)).
    rewrite E, E. split; reflexivity.
Qed.

(* ================================================================== *)
(** * What each action leaves behind *)
(* ================================================================== *)

Section Outcomes.

Lemma lookup_path (n : string) (h : Host) :
  lookup (EXPORT_FOLDER ++ "/" ++ n) h
  = match folder h with
    | Some es => find (fun e => String.eqb (entryName e) n) es
    | None => None
    end.
Proof. reflexivity. Qed.

(** [remove] of the entry called [n]. *)
Lemma fs_remove_run (n : string) (s : Sys) :
  fs_remove (EXPORT_FOLDER ++ "/" ++ n) s
  = match folder (host s) with
    | Some es =>
        match find (fun e => String.eqb (entryName e) n) es with
        | Some e =>
            if removable e
            then (Normal tt,
                  {| host := {| tauri := tauri (host s);
                                folder := Some (filter (fun x => negb (String.eqb (entryName x) n)) es);
                                mkdirAllowed := mkdirAllowed (host s);
                                blobStore := blobStore (host s) |};
                     ui := ui s; console := console s |})
            else (Thrown (FsError "remove" (EXPORT_FOLDER ++ "/" ++ n)), s)
        | None => (Thrown (FsError "remove" (EXPORT_FOLDER ++ "/" ++ n)), s)
        end
    | None => (Thrown (FsError "remove" (EXPORT_FOLDER ++ "/" ++ n)), s)
    end.
Proof.
  unfold fs_remove. unfold_task. cbv beta iota. rewrite lookup_path.
  destruct (folder (host s)) as [es|]; [|reflexivity].
  destruct (find _ es) as [e|] eqn:Hfind; [|reflexivity].
  apply find_some in Hfind as [_ He]. apply String.eqb_eq in He. subst n.
  destruct (removable e); reflexivity.
Qed.

(** [deleteFile] inside the desktop host. *)
Lemma deleteFile_run (file : FileType) (s : Sys) :
  tauri (host s) = true ->
  deleteFile file s
  = match fs_remove (EXPORT_FOLDER ++ "/" ++ name file) s with
    | (Normal _, s') =>
        (Normal tt,
         {| host := host s';
            ui := {| files := filter (other_than file) (files (ui s'));
                     loading := loading (ui s');
                     fileContent := fileContent (ui s');
                     pdfUrl := pdfUrl (ui s');
                     fileName := fileName (ui s') |};
            console := console s' |})
    | (Thrown err, s') => (Normal tt, log_error "Error deleting file" err s')
    end.
Proof.
  intros Ht. unfold deleteFile. unfold_task. cbv beta iota. rewrite Ht.
  cbn [negb].
  destruct (fs_remove _ s) as [[u|err] s']; reflexivity.
Qed.

Lemma deleteFile_browser (file : FileType) (s : Sys) :
  tauri (host s) = false -> deleteFile file s = (Normal tt, s).
Proof.
  intros Ht. unfold deleteFile. unfold_task. now rewrite Ht.
Qed.

(** The five ways [readAnyFile] can leave the state. *)
Lemma readAnyFile_outcome (file : FileType) (s : Sys) :
  exec (readAnyFile file) s = s
  \/ (exists text, exec (readAnyFile file) s = show_content (PTxt text) s)
  \/ (exists records, exec (readAnyFile file) s = show_content (PCsv records) s)
  \/ (exists bytes, exec (readAnyFile file) s = show_pdf bytes s)
  \/ (exists err, exec (readAnyFile file) s = log_error "File read failed:" err s).
Proof.
  destruct (file_ext_defined (name file)) as [ext He].
  destruct (String.eqb_spec ext "txt") as [-> | Ht].
  { rewrite (readAnyFile_txt_exec file s He).
    destruct (result _ s); eauto 8. }
  destruct (String.eqb_spec ext "csv") as [-> | Hc].
  { rewrite (readAnyFile_csv_exec file s He).
    destruct (result _ s); eauto 8. }
  destruct (String.eqb_spec ext "pdf") as [-> | Hp].
  { rewrite (readAnyFile_pdf_exec file s He).
    destruct (result _ s) as [binary|]; [|eauto 8].
    destruct (result (normalize_binary binary) s); eauto 8. }
  left. unfold exec. now rewrite (readAnyFile_other file ext He Ht Hc Hp).
Qed.

(** What [ensureFolderExists] does, case by case. *)
Lemma ensureFolderExists_run (s : Sys) :
  ensureFolderExists s
  = match folder (host s) with
    | Some _ => (Normal tt, s)
    | None =>
        if mkdirAllowed (host s)
        then (Normal tt,
              {| host := {| tauri := tauri (host s); folder := Some [];
                            mkdirAllowed := mkdirAllowed (host s);
                            blobStore := blobStore (host s) |};
                 ui := ui s; console := console s |})
        else (Normal tt,
              {| host := host s; ui := ui s;
                 console := (console s
                             ++ [ConsoleWarn "Folder creation failed:"
                                   (FsError "mkdir" EXPORT_FOLDER)])%list |})
    end.
Proof.
  destruct s as [[t [es|] allowed blobs] u c]; [|destruct allowed];
    reflexivity.
Qed.

Lemma load_run (s : Sys) :
  load s = if tauri (host s)
           then loadFiles (exec ensureFolderExists s)
           else (Normal tt, s).
Proof.
  unfold load, exec, isTauri, when, get_host, bind at 1 2, ret.
  destruct (tauri (host s)); [|reflexivity].
  unfold bind. rewrite ensureFolderExists_run.
  destruct (folder (host s)); [reflexivity|].
  destruct (mkdirAllowed (host s)); reflexivity.
Qed.

End Outcomes.

(* ================================================================== *)
(** * Further properties of deleting *)
(* ================================================================== *)

Section DeleteOutcome.

Lemma find_removed (n : string) (es : list HostEntry) :
  find (fun e => String.eqb (entryName e) n)
       (filter (fun x => negb (String.eqb (entryName x) n)) es) = None.
Proof.
  induction es as [|e es IH]; [reflexivity|].
  simpl. destruct (String.eqb (entryName e) n) eqn:E; simpl; [exact IH|].
  now rewrite E.
Qed.

(** The state after a removal that succeeded. *)
Lemma deleteFile_removed (file : FileType) (s : Sys) :
  tauri (host s) = true ->
  result (fs_remove (EXPORT_FOLDER ++ "/" ++ name file)) s = Normal tt ->
  exists es,
    folder (host s) = Some es
    /\ exec (deleteFile file) s
       = {| host := {| tauri := tauri (host s);
                       folder := Some (filter (fun x => negb (String.eqb (entryName x) (name file))) es);
                       mkdirAllowed := mkdirAllowed (host s);
                       blobStore := blobStore (host s) |};
            ui := {| files := filter (other_than file) (files (ui s));
                     loading := loading (ui s);
                     fileContent := fileContent (ui s);
                     pdfUrl := pdfUrl (ui s);
                     fileName := fileName (ui s) |};
            console := console s |}.
Proof.
  intros Ht Hr. unfold exec. rewrite (deleteFile_run file s Ht).
  unfold result in Hr. rewrite fs_remove_run in *.
  destruct (folder (host s)) as [es|]; [|discriminate].
  exists es. split; [reflexivity|].
  destruct (find _ es) as [e|]; [|discriminate].
  destruct (removable e); [reflexivity | discriminate].
Qed.

End DeleteOutcome.

(** X6: a file that was deleted stays gone: after a removal that
    succeeded, a fresh listing of the folder has no entry of that
    name. *)
Theorem deleted_file_stays_gone (file : FileType) (s : Sys) (f : FileType) :
  tauri (host s) = true ->
  result (fs_remove (EXPORT_FOLDER ++ "/" ++ name file)) s = Normal tt ->
  In f (files (ui (exec loadFiles (exec (deleteFile file) s)))) ->
  name f <> name file.
Proof.
  intros Ht Hr Hin.
  destruct (deleteFile_removed file s Ht Hr) as (es & Hf & Hs1).
  rewrite Hs1 in Hin. clear Hs1.
  match type of Hin with
  | In f (files (ui (exec loadFiles ?s1))) =>
      destruct (loadFiles_run s1 Ht) as (logs & Hrun & _);
      unfold exec in Hin; rewrite Hrun in Hin; cbn [snd with_catalog ui files] in Hin;
      destruct (listed (host s1)) as [cat|] eqn:Hl; [|destruct Hin];
      destruct (listed_entry_origin _ _ _ Hl Hin)
        as (es' & e & m & Hes' & He & _ & Hname & _)
  end.
  cbn [host folder] in Hes'. injection Hes' as <-.
  apply filter_In in He as [_ He]. apply negb_true_iff in He.
  apply String.eqb_neq in He. congruence.
Qed.

Lemma deleted_file_stays_gone_witness :
  "b.csv" <> "a.txt".
Proof.
  apply (deleted_file_stays_gone Samples.file_a Samples.desktop Samples.file_b);
    [reflexivity | reflexivity | vm_compute; tauto].
Defined.

(** X7: deleting the same file a second time removes nothing: the
    removal rejects, "Error deleting file" is logged, and the catalog
    and the folder stay as the first deletion left them. *)
Theorem delete_twice_only_logs (file : FileType) (s : Sys) :
  tauri (host s) = true ->
  result (fs_remove (EXPORT_FOLDER ++ "/" ++ name file)) s = Normal tt ->
  exec (deleteFile file) (exec (deleteFile file) s)
  = log_error "Error deleting file"
      (FsError "remove" (EXPORT_FOLDER ++ "/" ++ name file))
      (exec (deleteFile file) s).
Proof.
  intros Ht Hr.
  destruct (deleteFile_removed file s Ht Hr) as (es & Hf & ->).
  unfold exec. rewrite deleteFile_run by exact Ht.
  rewrite fs_remove_run. cbn [host folder]. now rewrite find_removed.
Qed.

Lemma delete_twice_only_logs_witness :
  files (ui (exec (deleteFile Samples.file_a)
               (exec (deleteFile Samples.file_a)
                  (exec loadFiles Samples.desktop))))
  = files (ui (exec (deleteFile Samples.file_a)
                 (exec loadFiles Samples.desktop))).
Proof.
  rewrite (delete_twice_only_logs Samples.file_a
             (exec loadFiles Samples.desktop) eq_refl eq_refl).
  reflexivity.
Defined.

(** X8: [deleteFile] never rejects and touches nothing but the
    catalog, the folder and the console: the preview, [loading] and the
    live object URLs are as before, and no entry is added to the
    catalog. *)
Theorem deleteFile_settles (file : FileType) (s : Sys) :
  result (deleteFile file) s = Normal tt
  /\ fileContent (ui (exec (deleteFile file) s)) = fileContent (ui s)
  /\ pdfUrl (ui (exec (deleteFile file) s)) = pdfUrl (ui s)
  /\ fileName (ui (exec (deleteFile file) s)) = fileName (ui s)
  /\ loading (ui (exec (deleteFile file) s)) = loading (ui s)
  /\ blobStore (host (exec (deleteFile file) s)) = blobStore (host s)
  /\ (forall f, In f (files (ui (exec (deleteFile file) s))) ->
                In f (files (ui s))).
Proof.
  destruct (tauri (host s)) eqn:Ht.
  - unfold result, exec. rewrite (deleteFile_run file s Ht), fs_remove_run.
    destruct (folder (host s)) as [es|]; [|repeat split; auto].
    destruct (find _ es) as [e|]; [|repeat split; auto].
    destruct (removable e); [|repeat split; auto].
    cbn. repeat split. intros f Hin. now apply filter_In in Hin.
  - unfold result, exec. rewrite (deleteFile_browser file s Ht).
    repeat split; auto.
Qed.

(** X9: outside the desktop host the catalog actions do nothing:
    [loadFiles], [deleteFile] and the effect on mount leave the state
    as it is (no folder access, no log), and [copyFilePath] leaves the
    clipboard and the toasts alone. *)
Theorem browser_actions_do_nothing (file : FileType) (w : Shell) :
  tauri (host (page w)) = false ->
  loadFiles (page w) = (Normal tt, page w)
  /\ deleteFile file (page w) = (Normal tt, page w)
  /\ load (page w) = (Normal tt, page w)
  /\ copyFilePath file w = w.
Proof.
  intros Ht. split; [now apply loadFiles_browser|].
  split; [now apply deleteFile_browser|]. split.
  - now rewrite load_run, Ht.
  - unfold copyFilePath. now rewrite Ht.
Qed.

Lemma browser_actions_do_nothing_witness :
  copyFilePath Samples.file_a (Scenes.shell_of Scenes.browser true)
  = Scenes.shell_of Scenes.browser true.
Proof.
  apply (browser_actions_do_nothing Samples.file_a
           (Scenes.shell_of Scenes.browser true)).
  reflexivity.
Defined.

(* ================================================================== *)
(** * Invariants of the page *)
(* ================================================================== *)

Section PageInvariants.

Lemma loadFiles_shape (s : Sys) :
  loadFiles s = (Normal tt, exec loadFiles s)
  /\ (exec loadFiles s = s
      \/ exists cat logs,
           exec loadFiles s = with_catalog cat logs s
           /\ (cat = [] \/ listed (host s) = Some cat)).
Proof.
  destruct (tauri (host s)) eqn:Ht.
  - destruct (loadFiles_run s Ht) as (logs & Hrun & _).
    unfold exec. rewrite Hrun. split; [reflexivity|]. right.
    eexists _, logs. split; [reflexivity|].
    destruct (listed (host s)); auto.
  - unfold exec. rewrite (loadFiles_browser s Ht). auto.
Qed.

Lemma deleteFile_shape (file : FileType) (s : Sys) :
  deleteFile file s = (Normal tt, exec (deleteFile file) s)
  /\ (exec (deleteFile file) s = s
      \/ (exists err,
            exec (deleteFile file) s = log_error "Error deleting file" err s)
      \/ (exists es,
            folder (host s) = Some es
            /\ exec (deleteFile file) s
               = {| host := {| tauri := tauri (host s);
                               folder := Some (filter (fun x => negb (String.eqb (entryName x) (name file))) es);
                               mkdirAllowed := mkdirAllowed (host s);
                               blobStore := blobStore (host s) |};
                    ui := {| files := filter (other_than file) (files (ui s));
                             loading := loading (ui s);
                             fileContent := fileContent (ui s);
                             pdfUrl := pdfUrl (ui s);
                             fileName := fileName (ui s) |};
                    console := console s |})).
Proof.
  destruct (Bool.bool_dec (tauri (host s)) true) as [Ht | Ht];
    [|apply not_true_is_false in Ht].
  - unfold exec. rewrite (deleteFile_run file s Ht), fs_remove_run.
    destruct (folder (host s)) as [es|];
      [|split; [reflexivity | right; left; eexists; reflexivity]].
    destruct (find _ es) as [e|];
      [|split; [reflexivity | right; left; eexists; reflexivity]].
    destruct (removable e);
      [|split; [reflexivity | right; left; eexists; reflexivity]].
    split; [reflexivity|]. right. right. exists es. split; reflexivity.
  - unfold exec. rewrite (deleteFile_browser file s Ht). auto.
Qed.

Lemma ensureFolderExists_shape (s : Sys) :
  ui (exec ensureFolderExists s) = ui s
  /\ tauri (host (exec ensureFolderExists s)) = tauri (host s)
  /\ blobStore (host (exec ensureFolderExists s)) = blobStore (host s)
  /\ (folder (host (exec ensureFolderExists s)) = folder (host s)
      \/ folder (host (exec ensureFolderExists s)) = Some []).
Proof.
  unfold exec. rewrite ensureFolderExists_run.
  destruct (folder (host s)) eqn:E; [simpl; auto|].
  destruct (mkdirAllowed (host s)); simpl; rewrite ?E; auto.
Qed.

Lemma load_shape (s : Sys) :
  load s = (Normal tt, exec load s)
  /\ (exec load s = s
      \/ exec load s = exec loadFiles (exec ensureFolderExists s)).
Proof.
  unfold exec at 1 2 3. rewrite load_run.
  destruct (tauri (host s)); [|auto].
  destruct (loadFiles_shape (exec ensureFolderExists s)) as [Hn _].
  rewrite Hn. auto.
Qed.

Lemma run_page_op_normal (op : PageOp) (s : Sys) :
  run_page_op op s = (Normal tt, exec (run_page_op op) s).
Proof.
  destruct op as [| | file | | file]; cbn [run_page_op].
  - apply load_shape.
  - apply loadFiles_shape.
  - unfold exec. now rewrite openFile_run.
  - reflexivity.
  - apply deleteFile_shape.
Qed.

Lemma run_page_ops_cons (op : PageOp) (ops : list PageOp) (s : Sys) :
  exec (run_page_ops (op :: ops)) s
  = exec (run_page_ops ops) (exec (run_page_op op) s).
Proof.
  cbn [run_page_ops]. unfold exec at 1, bind. now rewrite run_page_op_normal.
Qed.

(** What every action keeps, every sequence of actions keeps. *)
Lemma page_invariant (P : Sys -> Prop) :
  (forall op s, P s -> P (exec (run_page_op op) s)) ->
  forall ops s, P s -> P (exec (run_page_ops ops) s).
Proof.
  intros Hstep ops. induction ops as [|op ops IH]; intros s Hs; [exact Hs|].
  rewrite run_page_ops_cons. apply IH, Hstep, Hs.
Qed.

(** The state [openFile] ends in. *)
Lemma openFile_shape (file : FileType) (s : Sys) :
  exec (openFile file) s = cleared file s
  \/ (exists text, exec (openFile file) s = show_content (PTxt text) (cleared file s))
  \/ (exists records,
        exec (openFile file) s = show_content (PCsv records) (cleared file s))
  \/ (exists bytes, exec (openFile file) s = show_pdf bytes (cleared file s))
  \/ (exists err,
        exec (openFile file) s
        = log_error "File read failed:" err (cleared file s)).
Proof.
  unfold exec at 1 2 3 4 5. rewrite openFile_run. cbn [snd].
  apply readAnyFile_outcome.
Qed.

Lemma StronglySorted_filter {A} (R : A -> A -> Prop) (p : A -> bool)
      (l : list A) :
  StronglySorted R l -> StronglySorted R (filter p l).
Proof.
  induction 1 as [|x l Hs IH Hall]; simpl; [constructor|].
  destruct (p x); [|exact IH]. constructor; [exact IH|].
  rewrite Forall_forall in *. intros y Hy. apply Hall.
  now apply filter_In in Hy.
Qed.

Lemma NoDup_map_filter {A B} (g : A -> B) (p : A -> bool) (l : list A) :
  NoDup (map g l) -> NoDup (map g (filter p l)).
Proof.
  induction l as [|x l IH]; simpl; intros H; [constructor|].
  inversion H as [|? ? Hx Hl]; subst.
  destruct (p x); [|now apply IH]. simpl. constructor; [|now apply IH].
  intros Hin. apply Hx. apply in_map_iff in Hin as (y & Hy & Hin).
  apply filter_In in Hin as [Hin _]. rewrite <- Hy. now apply in_map.
Qed.

Lemma listed_names_unique (h : Host) (cat : list FileType) :
  folder_names_unique h -> listed h = Some cat -> NoDup (map name cat).
Proof.
  unfold folder_names_unique, listed.
  destruct (folder h) as [es|]; [|discriminate].
  destruct (existsb (stat_fails h) es) eqn:Hok; [discriminate|].
  intros Hnd [= <-].
  apply (Permutation_NoDup (l := map name (surviving h es))).
  - apply Permutation_map, js_sort_perm.
  - rewrite (surviving_names _ _ Hok). now apply NoDup_map_filter.
Qed.

End PageInvariants.

(** X10: the catalog stays sorted.  Whatever the page does (mount,
    refresh, open, close, delete, in any order), a catalog that was
    sorted by modification time, newest first, still is. *)
Theorem catalog_stays_sorted (ops : list PageOp) (s : Sys) :
  StronglySorted mtime_ge (files (ui s)) ->
  StronglySorted mtime_ge (files (ui (exec (run_page_ops ops) s))).
Proof.
  revert ops s.
  apply (page_invariant (fun s => StronglySorted mtime_ge (files (ui s)))).
  assert (Hload : forall s, StronglySorted mtime_ge (files (ui s)) ->
                            StronglySorted mtime_ge (files (ui (exec loadFiles s)))).
  { intros s Hs. destruct (loadFiles_shape s) as [_ [-> | (cat & logs & -> & Hc)]];
      [exact Hs|]. cbn. destruct Hc as [-> | Hl]; [constructor|].
    now apply (listed_sorted (host s)). }
  intros op s Hs. destruct op as [| | file | | file]; cbn [run_page_op].
  - destruct (load_shape s) as [_ [-> | ->]]; [exact Hs|]. apply Hload.
    now rewrite (proj1 (ensureFolderExists_shape s)).
  - now apply Hload.
  - destruct (openFile_shape file s)
      as [-> | [(? & ->) | [(? & ->) | [(? & ->) | (? & ->)]]]]; exact Hs.
  - exact Hs.
  - destruct (deleteFile_shape file s)
      as [_ [-> | [(? & ->) | (es & _ & ->)]]]; try exact Hs.
    cbn. now apply StronglySorted_filter.
Qed.

Lemma catalog_stays_sorted_witness :
  StronglySorted mtime_ge
    (files (ui (exec (run_page_ops [PMount; POpen Samples.file_c;
                                    PDelete Samples.file_b; PClose; PRefresh])
                  Samples.desktop))).
Proof.
  apply catalog_stays_sorted. constructor.
Defined.

(** X11: names stay unique.  If no two entries of the folder share a
    name and no two entries of the catalog do, this is still so after
    any sequence of actions of the page. *)
Theorem catalog_names_stay_unique (ops : list PageOp) (s : Sys) :
  folder_names_unique (host s) /\ NoDup (map name (files (ui s))) ->
  folder_names_unique (host (exec (run_page_ops ops) s))
  /\ NoDup (map name (files (ui (exec (run_page_ops ops) s)))).
Proof.
  revert ops s.
  apply (page_invariant
           (fun s => folder_names_unique (host s)
                     /\ NoDup (map name (files (ui s))))).
  assert (Hload : forall s,
             folder_names_unique (host s) /\ NoDup (map name (files (ui s))) ->
             folder_names_unique (host (exec loadFiles s))
             /\ NoDup (map name (files (ui (exec loadFiles s))))).
  { intros s [Hf Hn].
    destruct (loadFiles_shape s) as [_ [-> | (cat & logs & -> & Hc)]]; [auto|].
    cbn. split; [exact Hf|]. destruct Hc as [-> | Hl]; [constructor|].
    now apply (listed_names_unique (host s)). }
  intros op s [Hf Hn]. destruct op as [| | file | | file]; cbn [run_page_op].
  - destruct (load_shape s) as [_ [-> | ->]]; [auto|]. apply Hload.
    destruct (ensureFolderExists_shape s) as (Hui & _ & _ & Hfolder).
    rewrite Hui. split; [|exact Hn]. unfold folder_names_unique in *.
    destruct Hfolder as [-> | ->]; [exact Hf | constructor].
  - now apply Hload.
  - destruct (openFile_shape file s)
      as [-> | [(? & ->) | [(? & ->) | [(? & ->) | (? & ->)]]]]; auto.
  - auto.
  - destruct (deleteFile_shape file s)
      as [_ [-> | [(? & ->) | (es & Hes & ->)]]]; auto.
    cbn. unfold folder_names_unique in *. rewrite Hes in Hf. cbn.
    split; now apply NoDup_map_filter.
Qed.

Lemma catalog_names_stay_unique_witness :
  NoDup (map name
           (files (ui (exec (run_page_ops [PMount; PDelete Samples.file_b])
                         Samples.desktop)))).
Proof.
  apply (catalog_names_stay_unique [PMount; PDelete Samples.file_b]
           Samples.desktop).
  split.
  - cbn. repeat constructor; cbn; intuition discriminate.
  - constructor.
Defined.

(** X12: the frame of the preview never dangles.  After any sequence
    of actions [pdfUrl] is empty or one of the live object URLs,
    provided it was so before. *)
Theorem pdf_url_stays_live (ops : list PageOp) (s : Sys) :
  pdf_url_live s -> pdf_url_live (exec (run_page_ops ops) s).
Proof.
  revert ops s. apply (page_invariant pdf_url_live).
  assert (Hload : forall s, pdf_url_live s -> pdf_url_live (exec loadFiles s)).
  { intros s Hs.
    destruct (loadFiles_shape s) as [_ [-> | (cat & logs & -> & _)]]; exact Hs. }
  intros op s Hs. destruct op as [| | file | | file]; cbn [run_page_op].
  - destruct (load_shape s) as [_ [-> | ->]]; [exact Hs|]. apply Hload.
    destruct (ensureFolderExists_shape s) as (Hui & _ & Hblobs & _).
    unfold pdf_url_live. now rewrite Hui, Hblobs.
  - now apply Hload.
  - destruct (openFile_shape file s)
      as [-> | [(? & ->) | [(? & ->) | [(bytes & ->) | (? & ->)]]]];
      try (left; reflexivity).
    right. exists bytes. cbn. apply in_or_app. right. now left.
  - left. reflexivity.
  - destruct (deleteFile_shape file s)
      as [_ [-> | [(? & ->) | (es & _ & ->)]]]; exact Hs.
Qed.

Lemma pdf_url_stays_live_witness :
  pdf_url_live
    (exec (run_page_ops [PMount; POpen Samples.file_c; PDelete Samples.file_c;
                         PRefresh])
       Samples.desktop).
Proof.
  apply pdf_url_stays_live. left. reflexivity.
Defined.

(* ================================================================== *)
(** * Further properties of the preview *)
(* ================================================================== *)

Section ReadResults.

(** What a read resolves to depends on the host alone. *)
Lemma fs_readTextFile_result (p : string) (s s' : Sys) :
  host s = host s' ->
  result (fs_readTextFile p) s = result (fs_readTextFile p) s'.
Proof.
  intros H. unfold fs_readTextFile. unfold_task. cbv beta iota. rewrite H.
  destruct (lookup p (host s')) as [e|]; [|reflexivity].
  destruct (textResult e); reflexivity.
Qed.

Lemma fs_readFile_result (p : string) (s s' : Sys) :
  host s = host s' ->
  result (fs_readFile p) s = result (fs_readFile p) s'.
Proof.
  intros H. unfold fs_readFile. unfold_task. cbv beta iota. rewrite H.
  destruct (lookup p (host s')) as [e|]; [|reflexivity].
  destruct (binaryResult e); reflexivity.
Qed.

End ReadResults.

(** X13: opening and closing previews never rejects and never touches
    the catalog or the folder: over any sequence of these operations
    [files], [loading] and the folder are as at the start. *)
Theorem preview_ops_keep_catalog (ops : list PreviewOp) (s : Sys) :
  result (run_ops ops) s = Normal tt
  /\ files (ui (exec (run_ops ops) s)) = files (ui s)
  /\ loading (ui (exec (run_ops ops) s)) = loading (ui s)
  /\ folder (host (exec (run_ops ops) s)) = folder (host s)
  /\ tauri (host (exec (run_ops ops) s)) = tauri (host s).
Proof.
  revert s. induction ops as [|op ops IH]; intros s; [repeat split|].
  assert (Hop : files (ui (exec (run_op op) s)) = files (ui s)
                /\ loading (ui (exec (run_op op) s)) = loading (ui s)
                /\ folder (host (exec (run_op op) s)) = folder (host s)
                /\ tauri (host (exec (run_op op) s)) = tauri (host s)).
  { destruct op as [file|]; cbn [run_op]; [|repeat split].
    destruct (openFile_shape file s)
      as [-> | [(? & ->) | [(? & ->) | [(? & ->) | (? & ->)]]]];
      repeat split. }
  destruct Hop as (Hf & Hl & Hd & Ht).
  destruct (IH (exec (run_op op) s)) as (Hr' & Hf' & Hl' & Hd' & Ht').
  rewrite run_ops_cons. repeat split; try congruence.
  unfold result. cbn [run_ops]. unfold bind. rewrite run_op_normal.
  exact Hr'.
Qed.

(** X16: opening a file with any other extension reads nothing and
    logs nothing: it only takes down the preview that was open, and
    the page shows the list. *)
Theorem unsupported_open_leaves_list (file : FileType) (s : Sys) (ext : string) :
  file_ext (name file) = Some ext ->
  ext <> "txt" -> ext <> "csv" -> ext <> "pdf" ->
  exec (openFile file) s = cleared file s
  /\ View.screen (exec (openFile file) s) = View.screen (exec closePreview s).
Proof.
  intros He Ht Hc Hp.
  assert (E : exec (openFile file) s = cleared file s).
  { unfold exec at 1. rewrite openFile_run. cbn [snd]. unfold exec.
    now rewrite (readAnyFile_other file ext He Ht Hc Hp). }
  split; [exact E|]. rewrite E. reflexivity.
Qed.

Lemma unsupported_open_leaves_list_witness :
  exec (openFile {| name := "d.exe"; mtime := 1 |}) Samples.desktop
  = cleared {| name := "d.exe"; mtime := 1 |} Samples.desktop.
Proof.
  apply (unsupported_open_leaves_list {| name := "d.exe"; mtime := 1 |}
           Samples.desktop "exe");
    [reflexivity | discriminate | discriminate | discriminate].
Defined.

(* ================================================================== *)
(** * Mounting the page *)
(* ================================================================== *)

(** X18: first run.  Mounted in the desktop host when the folder does
    not exist yet and may be created, the page creates it empty, ends
    with an empty catalog and [loading] off, logs nothing, and shows
    the note for an empty catalog. *)
Theorem first_mount_creates_folder (s : Sys) :
  tauri (host s) = true ->
  folder (host s) = None ->
  mkdirAllowed (host s) = true ->
  result load s = Normal tt
  /\ folder (host (exec load s)) = Some []
  /\ files (ui (exec load s)) = []
  /\ loading (ui (exec load s)) = false
  /\ console (exec load s) = console s
  /\ (pdfUrl (ui s) = "" -> fileContent (ui s) = None ->
      exists hint,
        View.screen (exec load s) = View.Listing hint (Some View.EmptyNote)).
Proof.
  intros Ht Hf Ha. unfold result, exec. rewrite load_run, Ht.
  unfold exec. rewrite ensureFolderExists_run, Hf, Ha. cbn [snd].
  match goal with
  | |- context [loadFiles ?s1] =>
      destruct (loadFiles_run s1 Ht) as (logs & Hrun & Hlogs);
      rewrite Hrun; clear Hrun; cbn in Hlogs; subst logs
  end.
  cbn. rewrite app_nil_r. repeat split.
  intros Hp Hc. unfold View.screen, View.render. cbn. rewrite Hp, Hc, Ht.
  cbn. eauto.
Qed.

Lemma first_mount_creates_folder_witness :
  folder (host (exec load Samples.fresh)) = Some []
  /\ console (exec load Samples.fresh) = [].
Proof.
  destruct (first_mount_creates_folder Samples.fresh eq_refl eq_refl eq_refl)
    as (_ & Hf & _ & _ & Hc & _).
  split; [exact Hf | exact Hc].
Defined.

(** X19: mounting when the folder is missing and cannot be created
    does not reject either: the failed [mkdir] is logged as a warning,
    then the failed listing as an error, in this order; the folder
    stays absent and the catalog is empty. *)
Theorem locked_mount_logs_both (s : Sys) :
  tauri (host s) = true ->
  folder (host s) = None ->
  mkdirAllowed (host s) = false ->
  result load s = Normal tt
  /\ host (exec load s) = host s
  /\ files (ui (exec load s)) = []
  /\ loading (ui (exec load s)) = false
  /\ console (exec load s)
     = (console s
        ++ [ConsoleWarn "Folder creation failed:" (FsError "mkdir" EXPORT_FOLDER);
            ConsoleError "Error listing files" (FsError "readDir" EXPORT_FOLDER)])%list.
Proof.
  intros Ht Hf Ha. unfold result, exec. rewrite load_run, Ht.
  unfold exec. rewrite ensureFolderExists_run, Hf, Ha. cbn [snd].
  unfold loadFiles, fs_readDir. unfold_task. cbn. rewrite Ht. cbn.
  rewrite Hf. cbn. rewrite <- app_assoc. repeat split.
Qed.

Lemma locked_mount_logs_both_witness :
  console (exec load Scenes.locked)
  = [ConsoleWarn "Folder creation failed:" (FsError "mkdir" "NepaliWallet");
     ConsoleError "Error listing files" (FsError "readDir" "NepaliWallet")].
Proof.
  destruct (locked_mount_logs_both Scenes.locked eq_refl eq_refl eq_refl)
    as (_ & _ & _ & _ & H).
  exact H.
Defined.

(** X20: once a refresh has completed in the desktop host and no
    preview is open, the card never shows the loading note: it shows
    the empty note when the catalog is empty and otherwise one row per
    catalog entry, in catalog order. *)
Theorem refreshed_list_screen (s : Sys) :
  tauri (host s) = true ->
  pdfUrl (ui s) = "" ->
  fileContent (ui s) = None ->
  exists hint,
    View.screen (exec loadFiles s)
    = View.Listing hint
        (Some (match files (ui (exec loadFiles s)) with
               | [] => View.EmptyNote
               | fs => View.Rows (map name fs)
               end)).
Proof.
  intros Ht Hp Hc. destruct (loadFiles_run s Ht) as (logs & Hrun & _).
  unfold exec. rewrite Hrun. cbn [snd].
  unfold View.screen, View.render, View.card_body, with_catalog. cbn.
  rewrite Hp, Hc, Ht. cbn. eauto.
Qed.

Lemma refreshed_list_screen_witness :
  exists hint,
    View.screen (exec loadFiles Samples.desktop)
    = View.Listing hint
        (Some (View.Rows ["b.csv"; "a.txt"; "c.pdf"; "e.pdf"; "TXT"])).
Proof.
  destruct (refreshed_list_screen Samples.desktop eq_refl eq_refl eq_refl)
    as [hint H].
  exists hint. exact H.
Defined.

(* ================================================================== *)
(** * Copying the path *)
(* ================================================================== *)

(** X21: [copyFilePath] in the desktop host.  When the plugin loads,
    [documentDir] and [join] resolve and [writeText] is permitted, the
    path [join] made of the documents directory, the folder name and
    the file name is on the clipboard and one toast is added, nothing
    being logged.  When one of these four steps rejects, "Copy failed"
    is logged with the rejection of the first step that failed, and
    clipboard and toasts are as before.  In both cases the catalog,
    the preview and the host are unchanged. *)
Theorem copyFilePath_outcomes (file : FileType) (w : Shell) :
  tauri (host (page w)) = true ->
  ui (page (copyFilePath file w)) = ui (page w)
  /\ host (page (copyFilePath file w)) = host (page w)
  /\ (forall docDir filePath,
        clipboardPlugin w = true ->
        documentDirAnswer w = Some docDir ->
        joinAnswer w [docDir; EXPORT_FOLDER; name file] = Some filePath ->
        writeAllowed w = true ->
        clipboard (copyFilePath file w) = Some filePath
        /\ toasts (copyFilePath file w)
           = (toasts w ++ ["File path copied to clipboard!"])%list
        /\ console (page (copyFilePath file w)) = console (page w))
  /\ (forall err,
        (clipboardPlugin w = false
         /\ err = FsError "import" "@tauri-apps/plugin-clipboard-manager")
        \/ (clipboardPlugin w = true /\ documentDirAnswer w = None
            /\ err = FsError "documentDir" "")
        \/ (exists docDir,
              clipboardPlugin w = true /\ documentDirAnswer w = Some docDir
              /\ joinAnswer w [docDir; EXPORT_FOLDER; name file] = None
              /\ err = FsError "join" docDir)
        \/ (exists docDir filePath,
              clipboardPlugin w = true /\ documentDirAnswer w = Some docDir
              /\ joinAnswer w [docDir; EXPORT_FOLDER; name file] = Some filePath
              /\ writeAllowed w = false
              /\ err = FsError "writeText" filePath) ->
        clipboard (copyFilePath file w) = clipboard w
        /\ toasts (copyFilePath file w) = toasts w
        /\ console (page (copyFilePath file w))
           = (console (page w) ++ [ConsoleError "Copy failed" err])%list).
Proof.
  intros Ht. unfold copyFilePath, copy_steps. rewrite Ht. cbn [negb].
  split; [|split; [|split]].
  - destruct (clipboardPlugin w); [|reflexivity].
    destruct (documentDirAnswer w) as [d|]; [|reflexivity].
    destruct (joinAnswer w [d; EXPORT_FOLDER; name file]); [|reflexivity].
    destruct (writeAllowed w); reflexivity.
  - destruct (clipboardPlugin w); [|reflexivity].
    destruct (documentDirAnswer w) as [d|]; [|reflexivity].
    destruct (joinAnswer w [d; EXPORT_FOLDER; name file]); [|reflexivity].
    destruct (writeAllowed w); reflexivity.
  - intros docDir filePath Hp Hd Hj Hw. rewrite Hp, Hd, Hj, Hw.
    repeat split.
  - intros err [[Hp ->] | [(Hp & Hd & ->) | [(d & Hp & Hd & Hj & ->)
                                            | (d & fp & Hp & Hd & Hj & Hw & ->)]]].
    + rewrite Hp. repeat split.
    + rewrite Hp, Hd. repeat split.
    + rewrite Hp, Hd, Hj. repeat split.
    + rewrite Hp, Hd, Hj, Hw. repeat split.
Qed.

Lemma copyFilePath_outcomes_witness :
  clipboard (copyFilePath Samples.file_a (Scenes.shell_of Samples.desktop true))
  = Some "/home/u/Documents/NepaliWallet/a.txt"
  /\ console (page (copyFilePath Samples.file_a
                      (Scenes.shell_of Samples.desktop false)))
     = [ConsoleError "Copy failed"
          (FsError "writeText" "/home/u/Documents/NepaliWallet/a.txt")].
Proof.
  split.
  - destruct (copyFilePath_outcomes Samples.file_a
                (Scenes.shell_of Samples.desktop true) eq_refl)
      as (_ & _ & Hok & _).
    destruct (Hok "/home/u/Documents" "/home/u/Documents/NepaliWallet/a.txt"
                eq_refl eq_refl eq_refl eq_refl) as [H _].
    exact H.
  - destruct (copyFilePath_outcomes Samples.file_a
                (Scenes.shell_of Samples.desktop false) eq_refl)
      as (_ & _ & _ & Hfail).
    destruct (Hfail (FsError "writeText" "/home/u/Documents/NepaliWallet/a.txt"))
      as (_ & _ & H); [|exact H].
    right. right. right.
    exists "/home/u/Documents", "/home/u/Documents/NepaliWallet/a.txt".
    repeat split.
Defined.

(* ================================================================== *)
(** * Opens that overlap *)
(* ================================================================== *)

Section Events.

Lemma begin_exec (file : FileType) (s : Sys) :
  exec (run_event (EvBegin file)) s = cleared file s.
Proof. reflexivity. Qed.

Lemma finish_exec (file : FileType) (s : Sys) :
  exec (run_event (EvFinish file)) s = exec (readAnyFile file) s.
Proof.
  unfold exec, run_event, bind, ret.
  destruct (readAnyFile file s) as [[r|e] s']; reflexivity.
Qed.

Lemma run_event_normal (ev : PreviewEvent) (s : Sys) :
  run_event ev s = (Normal tt, exec (run_event ev) s).
Proof.
  destruct ev as [file | file |]; try reflexivity.
  unfold exec, run_event, bind, ret.
  pose proof (readAnyFile_returns_unknown file s) as H. unfold result in H.
  destruct (readAnyFile file s) as [[r|e] s']; [reflexivity | discriminate].
Qed.

Lemma run_events_cons (ev : PreviewEvent) (evs : list PreviewEvent) (s : Sys) :
  exec (run_events (ev :: evs)) s = exec (run_events evs) (exec (run_event ev) s).
Proof.
  cbn [run_events]. unfold exec at 1, bind. now rewrite run_event_normal.
Qed.

Lemma run_events_app (evs evs' : list PreviewEvent) (s : Sys) :
  exec (run_events (evs ++ evs')) s
  = exec (run_events evs') (exec (run_events evs) s).
Proof.
  revert s. induction evs as [|ev evs IH]; intros s; [reflexivity|].
  cbn [app]. now rewrite !run_events_cons, IH.
Qed.

(** An open with nothing in between is [openFile]. *)
Lemma open_is_begin_then_finish (file : FileType) (s : Sys) :
  exec (run_events [EvBegin file; EvFinish file]) s = exec (openFile file) s.
Proof.
  rewrite !run_events_cons, begin_exec, finish_exec.
  unfold exec at 3. now rewrite openFile_run.
Qed.

(** An open from its beginning to its completion. *)
Lemma open_around (file : FileType) (mid : list PreviewEvent) (s : Sys) :
  exec (run_events (EvBegin file :: mid ++ [EvFinish file])) s
  = exec (readAnyFile file) (overlapped file mid s).
Proof.
  rewrite run_events_cons, begin_exec, run_events_app, run_events_cons.
  now rewrite finish_exec.
Qed.

Lemma run_event_folder (ev : PreviewEvent) (s : Sys) :
  folder (host (exec (run_event ev) s)) = folder (host s).
Proof.
  destruct ev as [file | file |]; try reflexivity.
  rewrite finish_exec.
  destruct (readAnyFile_outcome file s)
    as [-> | [(? & ->) | [(? & ->) | [(? & ->) | (? & ->)]]]]; reflexivity.
Qed.

Lemma overlapped_folder (file : FileType) (mid : list PreviewEvent) (s : Sys) :
  folder (host (overlapped file mid s)) = folder (host s).
Proof.
  unfold overlapped.
  change (folder (host s)) with (folder (host (cleared file s))).
  generalize (cleared file s). induction mid as [|ev mid IH]; intros s0;
    [reflexivity|].
  now rewrite run_events_cons, IH, run_event_folder.
Qed.

(** What a read resolves to depends on the folder alone. *)
Lemma fs_readTextFile_folder (p : string) (s s' : Sys) :
  folder (host s) = folder (host s') ->
  result (fs_readTextFile p) s = result (fs_readTextFile p) s'.
Proof.
  intros H. unfold fs_readTextFile, lookup. unfold_task. cbv beta iota.
  rewrite H.
  destruct (strip_prefix _ p); [|reflexivity].
  destruct (folder (host s')) as [es|]; [|reflexivity].
  destruct (find _ es) as [e|]; [|reflexivity].
  destruct (textResult e); reflexivity.
Qed.

Lemma fs_readFile_folder (p : string) (s s' : Sys) :
  folder (host s) = folder (host s') ->
  result (fs_readFile p) s = result (fs_readFile p) s'.
Proof.
  intros H. unfold fs_readFile, lookup. unfold_task. cbv beta iota.
  rewrite H.
  destruct (strip_prefix _ p); [|reflexivity].
  destruct (folder (host s')) as [es|]; [|reflexivity].
  destruct (find _ es) as [e|]; [|reflexivity].
  destruct (binaryResult e); reflexivity.
Qed.

(** The completion of a read that resolved, on any later state. *)
Lemma finish_txt (file : FileType) (s m : Sys) (text : string) :
  file_ext (name file) = Some "txt" ->
  result (fs_readTextFile (EXPORT_FOLDER ++ "/" ++ name file)) s = Normal text ->
  folder (host m) = folder (host s) ->
  exec (readAnyFile file) m = show_content (PTxt text) m.
Proof.
  intros He Hr Hf.
  now rewrite (readAnyFile_txt_exec file m He),
    (fs_readTextFile_folder _ m s Hf), Hr.
Qed.

Lemma finish_csv (file : FileType) (s m : Sys) (text : string) :
  file_ext (name file) = Some "csv" ->
  result (fs_readTextFile (EXPORT_FOLDER ++ "/" ++ name file)) s = Normal text ->
  folder (host m) = folder (host s) ->
  exec (readAnyFile file) m = show_content (PCsv (Papa.parse text)) m.
Proof.
  intros He Hr Hf.
  now rewrite (readAnyFile_csv_exec file m He),
    (fs_readTextFile_folder _ m s Hf), Hr.
Qed.

Lemma finish_pdf (file : FileType) (s m : Sys) (binary : BinaryRead)
      (bytes : list byte) :
  file_ext (name file) = Some "pdf" ->
  result (fs_readFile (EXPORT_FOLDER ++ "/" ++ name file)) s = Normal binary ->
  result (normalize_binary binary) s = Normal bytes ->
  folder (host m) = folder (host s) ->
  exec (readAnyFile file) m = show_pdf bytes m.
Proof.
  intros He Hr Hn Hf.
  now rewrite (readAnyFile_pdf_exec file m He),
    (fs_readFile_folder _ m s Hf), Hr,
    (normalize_binary_result binary m s), Hn.
Qed.

(** The completion of a read that rejected, on any later state. *)
Lemma finish_failed (file : FileType) (s m : Sys) (err : JsError) :
  ((file_ext (name file) = Some "txt" \/ file_ext (name file) = Some "csv")
   /\ result (fs_readTextFile (EXPORT_FOLDER ++ "/" ++ name file)) s = Thrown err)
  \/ (file_ext (name file) = Some "pdf"
      /\ (result (fs_readFile (EXPORT_FOLDER ++ "/" ++ name file)) s = Thrown err
          \/ exists binary,
               result (fs_readFile (EXPORT_FOLDER ++ "/" ++ name file)) s
               = Normal binary
               /\ result (normalize_binary binary) s = Thrown err)) ->
  folder (host m) = folder (host s) ->
  exec (readAnyFile file) m = log_error "File read failed:" err m.
Proof.
  intros H Hf.
  destruct H as [[[He | He] Hr] | [He [Hr | (binary & Hr & Hn)]]].
  - now rewrite (readAnyFile_txt_exec file m He),
      (fs_readTextFile_folder _ m s Hf), Hr.
  - now rewrite (readAnyFile_csv_exec file m He),
      (fs_readTextFile_folder _ m s Hf), Hr.
  - now rewrite (readAnyFile_pdf_exec file m He),
      (fs_readFile_folder _ m s Hf), Hr.
  - now rewrite (readAnyFile_pdf_exec file m He),
      (fs_readFile_folder _ m s Hf), Hr,
      (normalize_binary_result binary m s), Hn.
Qed.

End Events.

(** X14: opens can overlap, and then the page shows two things.  When
    a PDF is opened while the read of a text file is still on its way
    and both reads resolve, then, in whichever order they complete, the
    text is in the content area, the frame is on the URL made for the
    PDF, and the title is the name of the PDF. *)
Theorem overlapping_opens_show_both (f g : FileType) (s : Sys)
        (text : string) (binary : BinaryRead) (bytes : list byte)
        (evs : list PreviewEvent) :
  file_ext (name f) = Some "txt" ->
  result (fs_readTextFile (EXPORT_FOLDER ++ "/" ++ name f)) s = Normal text ->
  file_ext (name g) = Some "pdf" ->
  result (fs_readFile (EXPORT_FOLDER ++ "/" ++ name g)) s = Normal binary ->
  result (normalize_binary binary) s = Normal bytes ->
  evs = [EvBegin f; EvBegin g; EvFinish g; EvFinish f]
  \/ evs = [EvBegin f; EvBegin g; EvFinish f; EvFinish g] ->
  fileContent (ui (exec (run_events evs) s)) = Some (PTxt text)
  /\ pdfUrl (ui (exec (run_events evs) s))
     = blob_url (List.length (blobStore (host s)))
  /\ fileName (ui (exec (run_events evs) s)) = name g
  /\ View.screen (exec (run_events evs) s)
     = View.Preview (name g)
         (Some (blob_url (List.length (blobStore (host s)))))
         (Some (View.TextBlock text)).
Proof.
  intros Hf Hrf Hg Hrg Hn [-> | ->];
    rewrite !run_events_cons, !begin_exec, !finish_exec.
  - rewrite (finish_pdf g s _ binary bytes Hg Hrg Hn) by reflexivity.
    rewrite (finish_txt f s _ text Hf Hrf) by reflexivity.
    repeat split.
  - rewrite (finish_txt f s _ text Hf Hrf) by reflexivity.
    rewrite (finish_pdf g s _ binary bytes Hg Hrg Hn) by reflexivity.
    repeat split.
Qed.

Lemma overlapping_opens_show_both_witness :
  View.screen
    (exec (run_events [EvBegin Samples.file_a; EvBegin Samples.file_c;
                       EvFinish Samples.file_c; EvFinish Samples.file_a])
       Scenes.office)
  = View.Preview "c.pdf" (Some "blob:0")
      (Some (View.TextBlock ("hello" ++ Papa.lf ++ "world"))).
Proof.
  apply (overlapping_opens_show_both Samples.file_a Samples.file_c Scenes.office
           ("hello" ++ Papa.lf ++ "world")
           (RawBytes [x25; x50; x44; x46]) [x25; x50; x44; x46]);
    try reflexivity.
  left. reflexivity.
Defined.

(** X15: a failed open puts nothing on screen.  When the read of a
    [txt], [csv] or [pdf] file rejects, or [atob] refuses the base64
    answer, the open clears the preview when it begins and, when it
    completes, only adds one "File read failed:" line to the console,
    whatever opens and closes came in between: it creates no object
    URL and leaves content, frame and title as they are at that
    moment.  With nothing in between, the page then shows the list,
    exactly as after closing a preview. *)
Theorem failed_open_only_logs (file : FileType) (mid : list PreviewEvent)
        (s : Sys) (err : JsError) :
  ((file_ext (name file) = Some "txt" \/ file_ext (name file) = Some "csv")
   /\ result (fs_readTextFile (EXPORT_FOLDER ++ "/" ++ name file)) s = Thrown err)
  \/ (file_ext (name file) = Some "pdf"
      /\ (result (fs_readFile (EXPORT_FOLDER ++ "/" ++ name file)) s = Thrown err
          \/ exists binary,
               result (fs_readFile (EXPORT_FOLDER ++ "/" ++ name file)) s
               = Normal binary
               /\ result (normalize_binary binary) s = Thrown err)) ->
  exec (run_events (EvBegin file :: mid ++ [EvFinish file])) s
  = log_error "File read failed:" err (overlapped file mid s)
  /\ View.screen (exec (run_events (EvBegin file :: mid ++ [EvFinish file])) s)
     = View.screen (overlapped file mid s)
  /\ (mid = [] ->
      View.screen (exec (run_events (EvBegin file :: mid ++ [EvFinish file])) s)
      = View.screen (exec closePreview s)).
Proof.
  intros H. rewrite open_around.
  rewrite (finish_failed file s _ err H (overlapped_folder file mid s)).
  split; [reflexivity|]. split; [reflexivity|].
  intros ->. reflexivity.
Qed.

Lemma failed_open_only_logs_witness :
  exec (run_events [EvBegin {| name := "broken.pdf"; mtime := 4 |};
                    EvBegin Samples.file_a; EvFinish Samples.file_a;
                    EvFinish {| name := "broken.pdf"; mtime := 4 |}])
    Scenes.mixed
  = log_error "File read failed:" InvalidCharacterError
      (overlapped {| name := "broken.pdf"; mtime := 4 |}
         [EvBegin Samples.file_a; EvFinish Samples.file_a] Scenes.mixed).
Proof.
  apply (failed_open_only_logs {| name := "broken.pdf"; mtime := 4 |}
           [EvBegin Samples.file_a; EvFinish Samples.file_a]
           Scenes.mixed InvalidCharacterError).
  right. split; [reflexivity|]. right.
  exists (Base64String "JVBER"). split; reflexivity.
Defined.

(** X17: what the completion of a successful open puts on screen,
    whatever opens and closes came in since it began.  A text file:
    its text in the content area.  A CSV file: the table of its
    records, or an empty content area when there is no record.  A PDF:
    the frame on the object URL just created.  The title, and the part
    of the preview this open does not write (the frame for text and
    CSV, the content area for a PDF), are as the events in between
    left them; with nothing in between the title is the name of the
    file and that other part is empty. *)
Theorem completed_open_screen (file : FileType) (mid : list PreviewEvent)
        (s : Sys) :
  (forall text,
     file_ext (name file) = Some "txt" ->
     result (fs_readTextFile (EXPORT_FOLDER ++ "/" ++ name file)) s = Normal text ->
     exec (run_events (EvBegin file :: mid ++ [EvFinish file])) s
     = show_content (PTxt text) (overlapped file mid s)
     /\ View.screen (exec (run_events (EvBegin file :: mid ++ [EvFinish file])) s)
        = View.Preview (fileName (ui (overlapped file mid s)))
            (if View.truthy (pdfUrl (ui (overlapped file mid s)))
             then Some (pdfUrl (ui (overlapped file mid s))) else None)
            (Some (View.TextBlock text)))
  /\ (forall text,
        file_ext (name file) = Some "csv" ->
        result (fs_readTextFile (EXPORT_FOLDER ++ "/" ++ name file)) s = Normal text ->
        exec (run_events (EvBegin file :: mid ++ [EvFinish file])) s
        = show_content (PCsv (Papa.parse text)) (overlapped file mid s)
        /\ View.screen (exec (run_events (EvBegin file :: mid ++ [EvFinish file])) s)
           = View.Preview (fileName (ui (overlapped file mid s)))
               (if View.truthy (pdfUrl (ui (overlapped file mid s)))
                then Some (pdfUrl (ui (overlapped file mid s))) else None)
               (Some (match Papa.parse text with
                      | [] => View.Blank
                      | records => View.Table records
                      end)))
  /\ (forall binary bytes,
        file_ext (name file) = Some "pdf" ->
        result (fs_readFile (EXPORT_FOLDER ++ "/" ++ name file)) s = Normal binary ->
        result (normalize_binary binary) s = Normal bytes ->
        exec (run_events (EvBegin file :: mid ++ [EvFinish file])) s
        = show_pdf bytes (overlapped file mid s)
        /\ View.screen (exec (run_events (EvBegin file :: mid ++ [EvFinish file])) s)
           = View.Preview (fileName (ui (overlapped file mid s)))
               (Some (blob_url (List.length (blobStore (host (overlapped file mid s))))))
               (option_map View.content_area
                  (fileContent (ui (overlapped file mid s)))))
  /\ fileName (ui (overlapped file [] s)) = name file
  /\ pdfUrl (ui (overlapped file [] s)) = ""
  /\ fileContent (ui (overlapped file [] s)) = None.
Proof.
  split; [|split; [|split; [|repeat split]]].
  - intros text He Hr. rewrite open_around.
    rewrite (finish_txt file s _ text He Hr (overlapped_folder file mid s)).
    split; [reflexivity|].
    unfold View.screen, View.render. cbn [show_content ui host pdfUrl fileContent fileName].
    now rewrite orb_true_r.
  - intros text He Hr. rewrite open_around.
    rewrite (finish_csv file s _ text He Hr (overlapped_folder file mid s)).
    split; [reflexivity|].
    unfold View.screen, View.render. cbn [show_content ui host pdfUrl fileContent fileName].
    rewrite orb_true_r. cbn [option_map View.content_area].
    destruct (Papa.parse text); reflexivity.
  - intros binary bytes He Hr Hn. rewrite open_around.
    rewrite (finish_pdf file s _ binary bytes He Hr Hn
               (overlapped_folder file mid s)).
    split; reflexivity.
Qed.

Lemma completed_open_screen_witness :
  View.screen (exec (run_events [EvBegin Scenes.file_report;
                                 EvFinish Scenes.file_report])
                 Scenes.office)
  = View.Preview "REPORT.TXT" None (Some (View.TextBlock "Q3"))
  /\ View.screen (exec (run_events [EvBegin Samples.file_c;
                                    EvBegin Scenes.file_report;
                                    EvFinish Scenes.file_report;
                                    EvFinish Samples.file_c])
                    Scenes.office)
     = View.Preview "REPORT.TXT" (Some "blob:0") (Some (View.TextBlock "Q3")).
Proof.
  split.
  - destruct (completed_open_screen Scenes.file_report [] Scenes.office)
      as (Htxt & _).
    destruct (Htxt "Q3" eq_refl eq_refl) as [_ H]. exact H.
  - destruct (completed_open_screen Samples.file_c
                [EvBegin Scenes.file_report; EvFinish Scenes.file_report]
                Scenes.office) as (_ & _ & Hpdf & _).
    destruct (Hpdf (RawBytes [x25; x50; x44; x46]) [x25; x50; x44; x46]
                eq_refl eq_refl eq_refl) as [_ H].
    exact H.
Defined.
